(** * PDF document extractor: classification, field extraction, normalisation

    A shallow embedding of the pure core of [main.py]: the text helpers
    ([clean_text], [format_date], [split_birth_place_date],
    [sanitize_filename_part], [generate_new_filename]), the six layout
    extractors, [detect_document_type], [extract_data_by_type] and the
    per-file loop of the bulk endpoint.

    Text is a [string] of 8-bit characters.  Python's character classes
    ([\d], [\w], [\s], [str.isspace], case mapping) are modelled by their
    ASCII members; characters above 127 belong to no class and have no
    case.  Records are Python dicts: [gmap string value] with
    [value := option string] ([None] is Python's [None]). *)

From Stdlib Require Import Ascii String NArith List Lia Bool.
From stdpp Require Import base option list gmap strings.

(** ** Characters *)

Module Chr.

Definition code (c : ascii) : N := N_of_ascii c.

Definition in_range (lo hi c : ascii) : bool :=
  (code lo <=? code c)%N && (code c <=? code hi)%N.

Definition eqc (a b : ascii) : bool := Ascii.eqb a b.

Definition isdigit (c : ascii) : bool := in_range "0"%char "9"%char c.
Definition isupper (c : ascii) : bool := in_range "A"%char "Z"%char c.
Definition islower (c : ascii) : bool := in_range "a"%char "z"%char c.
Definition isalpha (c : ascii) : bool := isupper c || islower c.

(** [\w] *)
Definition isword (c : ascii) : bool := isalpha c || isdigit c || eqc c "_"%char.

(** [\s], [str.isspace]: TAB LF VT FF CR, FS GS RS US, SPACE. *)
Definition isspace (c : ascii) : bool :=
  in_range "009"%char "013"%char c || in_range "028"%char "031"%char c
  || eqc c " "%char.

(** Line boundaries of [str.splitlines]: LF VT FF CR FS GS RS. *)
Definition islinebreak (c : ascii) : bool :=
  in_range "010"%char "013"%char c || in_range "028"%char "030"%char c.

Definition upper (c : ascii) : ascii :=
  if islower c then ascii_of_N (code c - 32) else c.

Definition lower (c : ascii) : ascii :=
  if isupper c then ascii_of_N (code c + 32) else c.

(** A class under [re.IGNORECASE]. *)
Definition ci (p : ascii -> bool) (c : ascii) : bool :=
  p c || p (upper c) || p (lower c).

End Chr.

(** ** Python string methods *)

Module Str.

Abbreviation len := String.length.

Fixpoint map (f : ascii -> ascii) (s : string) : string :=
  match s with
  | EmptyString => EmptyString
  | String c s' => String (f c) (map f s')
  end.

Definition upper : string -> string := map Chr.upper.
Definition lower : string -> string := map Chr.lower.

Fixpoint filter (p : ascii -> bool) (s : string) : string :=
  match s with
  | EmptyString => EmptyString
  | String c s' => if p c then String c (filter p s') else filter p s'
  end.

Fixpoint forallb (p : ascii -> bool) (s : string) : bool :=
  match s with
  | EmptyString => true
  | String c s' => p c && forallb p s'
  end.

Fixpoint take (n : nat) (s : string) : string :=
  match n, s with
  | S k, String c s' => String c (take k s')
  | _, _ => EmptyString
  end.

Fixpoint drop (n : nat) (s : string) : string :=
  match n, s with
  | S k, String c s' => drop k s'
  | _, _ => s
  end.

Fixpoint startswith (p s : string) : bool :=
  match p, s with
  | EmptyString, _ => true
  | String a p', String b s' => Chr.eqc a b && startswith p' s'
  | String _ _, EmptyString => false
  end.

Definition endswith (p s : string) : bool :=
  Nat.leb (len p) (len s) && startswith p (drop (len s - len p) s).

(** [needle in s] *)
Fixpoint contains (needle s : string) : bool :=
  startswith needle s ||
  match s with
  | EmptyString => false
  | String _ s' => contains needle s'
  end.

Fixpoint lstrip (s : string) : string :=
  match s with
  | EmptyString => EmptyString
  | String c s' => if Chr.isspace c then lstrip s' else s
  end.

Fixpoint rstrip (s : string) : string :=
  match s with
  | EmptyString => EmptyString
  | String c s' =>
      match rstrip s' with
      | EmptyString => if Chr.isspace c then EmptyString else String c EmptyString
      | r => String c r
      end
  end.

Definition strip (s : string) : string := rstrip (lstrip s).

(** [s.split()]: the maximal runs of non-whitespace characters. *)
Fixpoint split_ws (s : string) : list string :=
  match s with
  | EmptyString => []
  | String c s' =>
      if Chr.isspace c then split_ws s'
      else match s' with
           | EmptyString => [String c EmptyString]
           | String c' _ =>
               if Chr.isspace c' then String c EmptyString :: split_ws s'
               else match split_ws s' with
                    | w :: ws => String c w :: ws
                    | [] => [String c EmptyString]
                    end
           end
  end.

(** [sep.join(l)] *)
Fixpoint join (sep : string) (l : list string) : string :=
  match l with
  | [] => EmptyString
  | [x] => x
  | x :: l' => x +:+ sep +:+ join sep l'
  end.

(** [s.split(sep)] for a non-empty separator: the first piece and the
    others.  [skip] counts the characters of a separator still to pass. *)
Fixpoint split_go (sep : string) (skip : nat) (s : string)
  : string * list string :=
  match s with
  | EmptyString => (EmptyString, [])
  | String c s' =>
      match skip with
      | S k => split_go sep k s'
      | O =>
          if startswith sep s
          then let '(h, t) := split_go sep (len sep - 1) s' in
               (EmptyString, h :: t)
          else let '(h, t) := split_go sep 0 s' in (String c h, t)
      end
  end.

Definition split (sep s : string) : list string :=
  let '(h, t) := split_go sep 0 s in h :: t.

(** [s.splitlines()] *)
Fixpoint splitlines_go (after_cr : bool) (s : string) : list string :=
  match s with
  | EmptyString => []
  | String c s' =>
      if after_cr && Chr.eqc c "010"%char then splitlines_go false s'
      else if Chr.islinebreak c
           then EmptyString :: splitlines_go (Chr.eqc c "013"%char) s'
           else match splitlines_go false s' with
                | l :: ls => String c l :: ls
                | [] => [String c EmptyString]
                end
  end.

Definition splitlines (s : string) : list string := splitlines_go false s.


(** [s.zfill(2)] on a string without sign. *)
Definition zfill2 (s : string) : string :=
  match s with
  | EmptyString => "00"
  | String c EmptyString => String "0"%char s
  | _ => s
  end.

Definition nonempty (s : string) : bool :=
  match s with EmptyString => false | _ => true end.

End Str.

(** ** Regular expressions

    The patterns of [main.py] use literals, character classes, greedy
    repetition of a class, alternation, optional parts, capture groups and
    [\b].  [matches r st] lists the states the backtracking matcher can
    reach from [st], in the order in which it tries them: greedy
    repetitions longest first, alternatives left to right.  [re.search]
    takes the first state of the first start position that has one. *)

Module Re.

Inductive regex : Type :=
| Eps
| Cls (p : ascii -> bool)
| Seq (r1 r2 : regex)
| Alt (r1 r2 : regex)
| Many (p : ascii -> bool)
| Grp (n : nat) (r : regex)
| WordB.

Record mstate : Type := MState {
  prev : option ascii;
  rest : string;
  caps : list (nat * string)
}.

Definition at_word (o : option ascii) : bool :=
  match o with Some c => Chr.isword c | None => false end.

Definition head (s : string) : option ascii :=
  match s with EmptyString => None | String c _ => Some c end.

Fixpoint many (p : ascii -> bool) (pv : option ascii) (s : string)
  (cs : list (nat * string)) : list mstate :=
  match s with
  | String c s' =>
      if p c then many p (Some c) s' cs ++ [MState pv s cs]
      else [MState pv s cs]
  | EmptyString => [MState pv s cs]
  end.

(** The text consumed between a state and a later one. *)
Definition consumed (st st' : mstate) : string :=
  Str.take (Str.len (rest st) - Str.len (rest st')) (rest st).

Fixpoint matches (r : regex) (st : mstate) : list mstate :=
  match r with
  | Eps => [st]
  | Cls p =>
      match rest st with
      | String c s' => if p c then [MState (Some c) s' (caps st)] else []
      | EmptyString => []
      end
  | Seq r1 r2 => flat_map (matches r2) (matches r1 st)
  | Alt r1 r2 => matches r1 st ++ matches r2 st
  | Many p => many p (prev st) (rest st) (caps st)
  | Grp n r1 =>
      List.map (fun st' => MState (prev st') (rest st')
                             ((n, consumed st st') :: caps st'))
               (matches r1 st)
  | WordB =>
      if xorb (at_word (prev st)) (at_word (head (rest st))) then [st] else []
  end.

(** A match object: the groups that took part, group 0 being the whole
    match. *)
Definition rmatch : Type := list (nat * string).

Fixpoint group (m : rmatch) (n : nat) : option string :=
  match m with
  | [] => None
  | (k, s) :: m' => if Nat.eqb k n then Some s else group m' n
  end.

Definition match_at (r : regex) (pv : option ascii) (s : string)
  : option rmatch :=
  match matches (Grp 0 r) (MState pv s []) with
  | st :: _ => Some (caps st)
  | [] => None
  end.

Fixpoint search_from (r : regex) (pv : option ascii) (s : string)
  : option rmatch :=
  match match_at r pv s with
  | Some m => Some m
  | None =>
      match s with
      | EmptyString => None
      | String c s' => search_from r (Some c) s'
      end
  end.

(** [re.search(r, s)] *)
Definition search (r : regex) (s : string) : option rmatch :=
  search_from r None s.

(** [re.sub(r, "", s)] for a pattern that matches no empty string: the
    leftmost matches, one after the other, are deleted. *)
Fixpoint sub_go (r : regex) (pv : option ascii) (skip : nat) (s : string)
  : string :=
  match s with
  | EmptyString => EmptyString
  | String c s' =>
      match skip with
      | S k => sub_go r (Some c) k s'
      | O =>
          match match_at r pv s with
          | Some m =>
              match group m 0 with
              | Some (String _ w) => sub_go r (Some c) (Str.len w) s'
              | _ => String c (sub_go r (Some c) 0 s')
              end
          | None => String c (sub_go r (Some c) 0 s')
          end
      end
  end.

Definition sub_del (r : regex) (s : string) : string := sub_go r None 0 s.

(** *** Pattern notation *)

Definition chr (c : ascii) : regex := Cls (Chr.eqc c).
Definition chr_i (c : ascii) : regex := Cls (Chr.ci (Chr.eqc c)).

Fixpoint lit (s : string) : regex :=
  match s with
  | EmptyString => Eps
  | String c EmptyString => chr c
  | String c s' => Seq (chr c) (lit s')
  end.

Fixpoint lit_i (s : string) : regex :=
  match s with
  | EmptyString => Eps
  | String c EmptyString => chr_i c
  | String c s' => Seq (chr_i c) (lit_i s')
  end.

Definition opt (r : regex) : regex := Alt r Eps.
Definition many1 (p : ascii -> bool) : regex := Seq (Cls p) (Many p).

Fixpoint rep (n : nat) (p : ascii -> bool) : regex :=
  match n with
  | O => Eps
  | 1 => Cls p
  | S k => Seq (Cls p) (rep k p)
  end.

Fixpoint seqs (l : list regex) : regex :=
  match l with
  | [] => Eps
  | [r] => r
  | r :: l' => Seq r (seqs l')
  end.

Fixpoint alts (r : regex) (l : list regex) : regex :=
  match l with
  | [] => r
  | r' :: l' => Alt r (alts r' l')
  end.

Definition any (c : ascii) : bool := negb (Chr.eqc c "010"%char).
Definition one_of (s : string) (c : ascii) : bool :=
  Str.contains (String c EmptyString) s.

End Re.

(** ** Python values, exceptions, dicts *)

(** A field value: a [str] or [None]. *)
Abbreviation value := (option string).

(** An extracted record: a dict from field names to values. *)
Abbreviation record := (gmap string value).

Inductive exn : Type :=
| AttributeError (attr : string)
| IndexError
| KeyError (k : string)
| PdfError (msg : string).

(** [str(e)] *)
Definition exn_str (e : exn) : string :=
  match e with
  | AttributeError attr =>
      "'NoneType' object has no attribute '" +:+ attr +:+ "'"
  | IndexError => "list index out of range"
  | KeyError k => "'" +:+ k +:+ "'"
  | PdfError msg => msg
  end.

Inductive result (A : Type) : Type :=
| Ok (a : A)
| Raise (e : exn).

Arguments Ok {A} a.
Arguments Raise {A} e.

Definition bind {A B : Type} (x : result A) (f : A -> result B) : result B :=
  match x with
  | Ok a => f a
  | Raise e => Raise e
  end.

Notation "x <- e ;; k" := (bind e (fun x => k))
  (at level 100, e at next level, right associativity).

Module Py.

(** Truth value of a [str] or [None]. *)
Definition truthy (v : value) : bool :=
  match v with
  | Some s => Str.nonempty s
  | None => false
  end.


(** [f"{v}"] *)
Definition str (v : value) : string :=
  match v with
  | Some s => s
  | None => "None"
  end.

(** A method call on a value: [None] has no string methods. *)
Definition method {A : Type} (attr : string) (f : string -> A) (v : value)
  : result A :=
  match v with
  | Some s => Ok (f s)
  | None => Raise (AttributeError attr)
  end.


(** [d[k]] *)
Definition getitem (d : record) (k : string) : result value :=
  match d !! k with
  | Some v => Ok v
  | None => Raise (KeyError k)
  end.

(** [l[i]] *)
Definition index {A : Type} (l : list A) (i : nat) : result A :=
  match l !! i with
  | Some x => Ok x
  | None => Raise IndexError
  end.

(** [m.group(n)] of an optional match, under [if m]. *)
Definition group (m : Re.rmatch) (n : nat) : value := Re.group m n.

End Py.

(** ** Patterns of the helper functions *)

Module Pat.
Import Re.

(** r"[-/]" *)
Definition dsep : ascii -> bool := one_of "-/".

(** r"Reference No|Payment Receipt No|Jenis Kelamin|Kewarganegaraan|Pekerjaan|Alamat" *)
Definition labels : regex :=
  alts (lit "Reference No")
    [lit "Payment Receipt No"; lit "Jenis Kelamin"; lit "Kewarganegaraan";
     lit "Pekerjaan"; lit "Alamat"].

(** r"\." *)
Definition period : regex := chr "."%char.

(** r"[^A-Za-z0-9\s,./-]" *)
Definition kept (c : ascii) : bool :=
  Chr.isalpha c || Chr.isdigit c || Chr.isspace c || one_of ",./-" c.
Definition not_kept : regex := Cls (fun c => negb (kept c)).

(** r"(\d{2})[-/](\d{2})[-/](\d{4})" *)
Definition date : regex :=
  seqs [Grp 1 (rep 2 Chr.isdigit); Cls dsep; Grp 2 (rep 2 Chr.isdigit);
        Cls dsep; Grp 3 (rep 4 Chr.isdigit)].


End Pat.

(** ** Helper functions *)

Definition clean_text (text : value) (is_name_or_pob : bool) : string :=
  match text with
  | None => ""
  | Some text =>
      let text := Re.sub_del Pat.labels text in
      let text := if is_name_or_pob then Re.sub_del Pat.period text else text in
      let text := Str.strip (Re.sub_del Pat.not_kept text) in
      Str.join " " (Str.split_ws text)
  end.

Definition format_date (date_str : value) : string :=
  if negb (Py.truthy date_str) then ""
  else
    match Re.search Pat.date (Py.str date_str) with
    | Some m =>
        Py.str (Py.group m 1) +:+ "/" +:+ Py.str (Py.group m 2) +:+ "/"
          +:+ Py.str (Py.group m 3)
    | None => Py.str date_str
    end.

Definition split_birth_place_date (text : value) : value * value :=
  match text with
  | Some t =>
      if Str.nonempty t then
        match Str.split ", " t with
        | [p0; p1] => (Some (Str.strip p0), Some (format_date (Some p1)))
        | _ => (text, None)
        end
      else (text, None)
  | None => (text, None)
  end.



Definition mk (l : list (string * value)) : record := list_to_map l.

(** ** Patterns of the extractors *)

Module SkttPat.
Import Re.

(** r"<label>\s*:\s*(<class>+)" *)
Definition labelled (label : string) (cls : ascii -> bool) : regex :=
  seqs [lit label; Many Chr.isspace; chr ":"%char; Many Chr.isspace;
        Grp 1 (many1 cls)].

(** r"NIK/Number of Population Identity\s*:\s*(\d+)" *)
Definition nik : regex :=
  labelled "NIK/Number of Population Identity" Chr.isdigit.

(** r"[\w\s]" *)
Definition word_space (c : ascii) : bool := Chr.isword c || Chr.isspace c.

(** r"Nama/Name\s*:\s*([\w\s]+)" *)
Definition name : regex := labelled "Nama/Name" word_space.

(** r"Jenis Kelamin/Sex\s*:\s*(MALE|FEMALE)" *)
Definition gender : regex :=
  seqs [lit "Jenis Kelamin/Sex"; Many Chr.isspace; chr ":"%char;
        Many Chr.isspace; Grp 1 (Alt (lit "MALE") (lit "FEMALE"))].

(** r"Tempat/Tgl Lahir\s*:\s*([\w\s,0-9-]+)" *)
Definition birth_place_date : regex :=
  labelled "Tempat/Tgl Lahir"
    (fun c => Chr.isword c || Chr.isspace c || Chr.eqc c ","%char
              || Chr.isdigit c || Chr.eqc c "-"%char).

(** r"Kewarganegaraan/Nationality\s*:\s*([\w\s]+)" *)
Definition nationality : regex :=
  labelled "Kewarganegaraan/Nationality" word_space.

(** r"Pekerjaan/Occupation\s*:\s*([\w\s]+)" *)
Definition occupation : regex := labelled "Pekerjaan/Occupation" word_space.

(** r"Alamat/Address\s*:\s*([\w\s,./-]+)" *)
Definition address : regex :=
  labelled "Alamat/Address"
    (fun c => Chr.isword c || Chr.isspace c || one_of ",./-" c).

(** r"Nomor KITAP/KITAS Number\s*:\s*([\w-]+)" *)
Definition kitab_kitas : regex :=
  labelled "Nomor KITAP/KITAS Number"
    (fun c => Chr.isword c || Chr.eqc c "-"%char).

(** r"Berlaku Hingga s.d/Expired date\s*:\s*([\d-]+)": the dot of s.d is
    unescaped and stands for any character but a newline. *)
Definition expiry_date : regex :=
  seqs [lit "Berlaku Hingga s"; Cls any; lit "d/Expired date";
        Many Chr.isspace; chr ":"%char; Many Chr.isspace;
        Grp 1 (many1 (fun c => Chr.isdigit c || Chr.eqc c "-"%char))].

(** r"([A-Z\s]+),\s*(\d{2}-\d{2}-\d{4})" *)
Definition date_issue : regex :=
  seqs [Grp 1 (many1 (fun c => Chr.isupper c || Chr.isspace c));
        chr ","%char; Many Chr.isspace;
        Grp 2 (seqs [rep 2 Chr.isdigit; chr "-"%char; rep 2 Chr.isdigit;
                     chr "-"%char; rep 4 Chr.isdigit])].

End SkttPat.

Module EvlnPat.
Import Re.

(** r"Dear\s+(Mr\.|Ms\.|Sir|Madam)?" with re.IGNORECASE *)
Definition dear : regex :=
  seqs [lit_i "Dear"; many1 Chr.isspace;
        opt (Grp 1 (alts (lit_i "Mr.") [lit_i "Ms."; lit_i "Sir";
                                        lit_i "Madam"]))].

(** r"\b<phrase>\b" under the (?i) flag *)
Definition bword (phrase : string) : regex :=
  seqs [WordB; lit_i phrase; WordB].

(** r"(?i)\bName\b|\bNama\b" *)
Definition name : regex := Alt (bword "Name") (bword "Nama").

(** r"(?i)\bPlace of Birth\b|\bTempat Lahir\b" *)
Definition place_of_birth : regex :=
  Alt (bword "Place of Birth") (bword "Tempat Lahir").

(** r"\s*Visa\s*Type\s*.*" *)
Definition visa_type : regex :=
  seqs [Many Chr.isspace; lit "Visa"; Many Chr.isspace; lit "Type";
        Many Chr.isspace; Many any].

(** r"(?i)\bDate of Birth\b|\bTanggal Lahir\b" *)
Definition date_of_birth : regex :=
  Alt (bword "Date of Birth") (bword "Tanggal Lahir").

(** r"(\d{2}/\d{2}/\d{4}|\d{2}-\d{2}-\d{4})" *)
Definition numeric_date : regex :=
  Grp 1 (Alt (seqs [rep 2 Chr.isdigit; chr "/"%char; rep 2 Chr.isdigit;
                    chr "/"%char; rep 4 Chr.isdigit])
             (seqs [rep 2 Chr.isdigit; chr "-"%char; rep 2 Chr.isdigit;
                    chr "-"%char; rep 4 Chr.isdigit])).

(** r"(?i)\bPassport No\b" *)
Definition passport_no : regex := bword "Passport No".

(** r"\b([A-Z0-9]+)\b" *)
Definition upper_token : regex :=
  seqs [WordB; Grp 1 (many1 (fun c => Chr.isupper c || Chr.isdigit c));
        WordB].

(** r"(?i)\bPassport Expiry\b" *)
Definition passport_expiry : regex := bword "Passport Expiry".

(** r"\d{1,2}" *)
Definition digits12 : regex := Seq (Cls Chr.isdigit) (opt (Cls Chr.isdigit)).

(** r"(\d{1,2}[/\-]\d{1,2}[/\-]\d{4})" *)
Definition loose_date : regex :=
  Grp 1 (seqs [digits12; Cls Pat.dsep; digits12; Cls Pat.dsep;
               rep 4 Chr.isdigit]).

(** r"(?i)(?:Date\s+of\s+Issue|Issue\s+Date|Issued\s+on|Tanggal\s+Penerbitan)\s*:?\s*(\d{1,2}[/\-]\d{1,2}[/\-]\d{4})" *)
Definition issue1 : regex :=
  seqs [alts (seqs [lit_i "Date"; many1 Chr.isspace; lit_i "of";
                    many1 Chr.isspace; lit_i "Issue"])
          [seqs [lit_i "Issue"; many1 Chr.isspace; lit_i "Date"];
           seqs [lit_i "Issued"; many1 Chr.isspace; lit_i "on"];
           seqs [lit_i "Tanggal"; many1 Chr.isspace; lit_i "Penerbitan"]];
        Many Chr.isspace; opt (chr ":"%char); Many Chr.isspace; loose_date].

(** r"(?i)(?:Issued|Diterbitkan)\s*:?\s*(\d{1,2}[/\-]\d{1,2}[/\-]\d{4})" *)
Definition issue2 : regex :=
  seqs [Alt (lit_i "Issued") (lit_i "Diterbitkan");
        Many Chr.isspace; opt (chr ":"%char); Many Chr.isspace; loose_date].

Definition issue_patterns : list regex := [issue1; issue2].

End EvlnPat.

Module ItasPat.
Import Re.

(** r"([A-Z\s]+)\nPERMIT NUMBER" *)
Definition name : regex :=
  seqs [Grp 1 (many1 (fun c => Chr.isupper c || Chr.isspace c));
        chr "010"%char; lit "PERMIT NUMBER"].

(** r"PERMIT NUMBER\s*:\s*([A-Z0-9-]+)" *)
Definition permit : regex :=
  SkttPat.labelled "PERMIT NUMBER"
    (fun c => Chr.isupper c || Chr.isdigit c || Chr.eqc c "-"%char).

(** r"STAY PERMIT EXPIRY\s*:\s*([\d/]+)" *)
Definition expiry : regex :=
  SkttPat.labelled "STAY PERMIT EXPIRY"
    (fun c => Chr.isdigit c || Chr.eqc c "/"%char).

(** r"Place / Date of Birth\s*.*:\s*([A-Za-z\s]+)\s*/\s*([\d-]+)" *)
Definition place_date_birth : regex :=
  seqs [lit "Place / Date of Birth"; Many Chr.isspace; Many any;
        chr ":"%char; Many Chr.isspace;
        Grp 1 (many1 (fun c => Chr.isalpha c || Chr.isspace c));
        Many Chr.isspace; chr "/"%char; Many Chr.isspace;
        Grp 2 (many1 (fun c => Chr.isdigit c || Chr.eqc c "-"%char))].

(** r"<label>\s*: (<class>+)" *)
Definition labelled_sp (label : string) (cls : ascii -> bool) : regex :=
  seqs [lit label; Many Chr.isspace; lit ": "; Grp 1 (many1 cls)].

(** r"Passport Number\s*: ([A-Z0-9]+)" *)
Definition passport : regex :=
  labelled_sp "Passport Number" (fun c => Chr.isupper c || Chr.isdigit c).

(** r"Passport Expiry\s*: ([\d-]+)" *)
Definition passport_expiry : regex :=
  labelled_sp "Passport Expiry"
    (fun c => Chr.isdigit c || Chr.eqc c "-"%char).

(** r"Nationality\s*: ([A-Z]+)" *)
Definition nationality : regex := labelled_sp "Nationality" Chr.isupper.

(** r"Gender\s*: ([A-Z]+)" *)
Definition gender : regex := labelled_sp "Gender" Chr.isupper.

(** r"Address\s*:\s*(.+)" *)
Definition address : regex := SkttPat.labelled "Address" any.

(** r"Occupation\s*:\s*(.+)" *)
Definition occupation : regex := SkttPat.labelled "Occupation" any.

(** r"Guarantor\s*:\s*(.+)" *)
Definition guarantor : regex := SkttPat.labelled "Guarantor" any.

(** r"([A-Za-z]+),\s*(\d{1,2})\s+([A-Za-z]+)\s+(\d{4})" *)
Definition date_issue : regex :=
  seqs [Grp 1 (many1 Chr.isalpha); chr ","%char; Many Chr.isspace;
        Grp 2 EvlnPat.digits12; many1 Chr.isspace;
        Grp 3 (many1 Chr.isalpha); many1 Chr.isspace;
        Grp 4 (rep 4 Chr.isdigit)].

(** r"(\d{1,2})[/-](\d{1,2})[/-](\d{4})" *)
Definition fallback_date : regex :=
  seqs [Grp 1 EvlnPat.digits12; Cls Pat.dsep; Grp 2 EvlnPat.digits12;
        Cls Pat.dsep; Grp 3 (rep 4 Chr.isdigit)].

End ItasPat.

Module NotifPat.
Import Re.

(** r"NOMOR\s+([A-Z0-9./-]+)" with re.IGNORECASE *)
Definition nomor_keputusan : regex :=
  seqs [lit_i "NOMOR"; many1 Chr.isspace;
        Grp 1 (many1 (Chr.ci (fun c => Chr.isupper c || Chr.isdigit c
                                       || one_of "./-" c)))].

(** r"<label>\s*:\s*(REST)" with re.IGNORECASE, where REST is the greedy
    dot-star *)
Definition field (label : string) : regex :=
  seqs [lit_i label; Many Chr.isspace; chr ":"%char; Many Chr.isspace;
        Grp 1 (Many any)].

(** r"\d{2}[-/]\d{2}[-/]\d{4}" *)
Definition date10 : regex :=
  seqs [rep 2 Chr.isdigit; Cls Pat.dsep; rep 2 Chr.isdigit; Cls Pat.dsep;
        rep 4 Chr.isdigit].

(** r"s\.?d\.?" with re.IGNORECASE *)
Definition sd : regex :=
  seqs [chr_i "s"%char; opt (chr "."%char); chr_i "d"%char;
        opt (chr "."%char)].

(** r"Berlaku\s*:?\s*(\d{2}[-/]\d{2}[-/]\d{4})\s*(?:s\.?d\.?|sampai dengan)?\s*(\d{2}[-/]\d{2}[-/]\d{4})" *)
Definition valid1 : regex :=
  seqs [lit_i "Berlaku"; Many Chr.isspace; opt (chr ":"%char);
        Many Chr.isspace; Grp 1 date10; Many Chr.isspace;
        opt (Alt sd (lit_i "sampai dengan")); Many Chr.isspace;
        Grp 2 date10].

(** r"Tanggal Berlaku\s*:?\s*(\d{2}[-/]\d{2}[-/]\d{4})\s*s\.?d\.?\s*(\d{2}[-/]\d{2}[-/]\d{4})" *)
Definition valid2 : regex :=
  seqs [lit_i "Tanggal Berlaku"; Many Chr.isspace; opt (chr ":"%char);
        Many Chr.isspace; Grp 1 date10; Many Chr.isspace; sd;
        Many Chr.isspace; Grp 2 date10].

(** r"Pada tanggal\s*:\s*(\d{1,2})\s+(Januari|...|Desember)\s+(\d{4})" *)
Definition date_issue : regex :=
  seqs [lit_i "Pada tanggal"; Many Chr.isspace; chr ":"%char;
        Many Chr.isspace; Grp 1 EvlnPat.digits12; many1 Chr.isspace;
        Grp 2 (alts (lit_i "Januari")
                 [lit_i "Februari"; lit_i "Maret"; lit_i "April";
                  lit_i "Mei"; lit_i "Juni"; lit_i "Juli"; lit_i "Agustus";
                  lit_i "September"; lit_i "Oktober"; lit_i "November";
                  lit_i "Desember"]);
        many1 Chr.isspace; Grp 3 (rep 4 Chr.isdigit)].

End NotifPat.

Module DetectPat.
Import Re.

(** r"SURAT KETERANGAN TENAGA KERJA TERDAFTAR" *)
Definition sktt : regex := lit_i "SURAT KETERANGAN TENAGA KERJA TERDAFTAR".
(** r"ENTRY VISA|VISA ENTRY" *)
Definition evln : regex := Alt (lit_i "ENTRY VISA") (lit_i "VISA ENTRY").
(** r"STAY PERMIT|PERMIT TO STAY|IZIN TINGGAL" *)
Definition itas : regex :=
  alts (lit_i "STAY PERMIT") [lit_i "PERMIT TO STAY"; lit_i "IZIN TINGGAL"].
(** r"IZIN TINGGAL KUNJUNGAN|VISIT PERMIT" *)
Definition itk : regex :=
  Alt (lit_i "IZIN TINGGAL KUNJUNGAN") (lit_i "VISIT PERMIT").
(** r"NOTIFIKASI" *)
Definition notifikasi : regex := lit_i "NOTIFIKASI".
(** r"DKPTKA" *)
Definition dkptka : regex := lit_i "DKPTKA".

End DetectPat.


(** ** Extractors *)

Definition nl : string := String "010"%char EmptyString.

Definition is_match (m : option Re.rmatch) : bool :=
  match m with Some _ => true | None => false end.

(** [m.group(n) if m else None] *)
Definition group_or_none (m : option Re.rmatch) (n : nat) : value :=
  match m with Some m => Py.group m n | None => None end.

(** The scan of [extract_sktt] for the line before the first line that
    holds KEPALA DINAS; [i] is the index of the head of [todo] in [lines]. *)
Fixpoint sktt_date_issue_loop (lines : list string) (i : nat)
  (todo : list string) : result value :=
  match todo with
  | [] => Ok None
  | line :: todo' =>
      if Str.contains "KEPALA DINAS" (Str.upper line) then
        if Nat.ltb 0 i then
          prev_line <- Py.index lines (i - 1) ;;
          match Re.search SkttPat.date_issue prev_line with
          | Some m => Ok (Py.group m 2)
          | None => Ok None
          end
        else Ok None
      else sktt_date_issue_loop lines (S i) todo'
  end.

Definition extract_sktt (text : string) : result record :=
  let nik := Re.search SkttPat.nik text in
  let name := Re.search SkttPat.name text in
  let gender := Re.search SkttPat.gender text in
  let birth_place_date := Re.search SkttPat.birth_place_date text in
  let nationality := Re.search SkttPat.nationality text in
  let occupation := Re.search SkttPat.occupation text in
  let address := Re.search SkttPat.address text in
  let kitab_kitas := Re.search SkttPat.kitab_kitas text in
  let expiry_date := Re.search SkttPat.expiry_date text in
  let lines := Str.splitlines (Str.strip text) in
  date_issue <- sktt_date_issue_loop lines 0 lines ;;
  let '(birth_place, birth_date) :=
    match birth_place_date with
    | Some m => split_birth_place_date (Py.group m 1)
    | None => (None, None)
    end in
  Ok (mk
    [("NIK", group_or_none nik 1);
     ("Name", match name with
              | Some m => Some (clean_text (Py.group m 1) true)
              | None => None
              end);
     ("Jenis Kelamin", group_or_none gender 1);
     ("Place of Birth", if Py.truthy birth_place
                        then Some (clean_text birth_place true) else None);
     ("Date of Birth", birth_date);
     ("Nationality", match nationality with
                     | Some m => Some (clean_text (Py.group m 1) false)
                     | None => None
                     end);
     ("Occupation", match occupation with
                    | Some m => Some (clean_text (Py.group m 1) false)
                    | None => None
                    end);
     ("Address", match address with
                 | Some m => Some (clean_text (Py.group m 1) false)
                 | None => None
                 end);
     ("KITAS/KITAP", match kitab_kitas with
                     | Some m => Some (clean_text (Py.group m 1) false)
                     | None => None
                     end);
     ("Passport Expiry", match expiry_date with
                         | Some m => Some (format_date (Py.group m 1))
                         | None => None
                         end);
     ("Date Issue", if Py.truthy date_issue
                    then Some (format_date date_issue) else None);
     ("Jenis Dokumen", Some "SKTT")]).

Definition evln_init : record :=
  mk [("Name", Some ""); ("Place of Birth", Some "");
      ("Date of Birth", Some ""); ("Passport No", Some "");
      ("Passport Expiry", Some ""); ("Date Issue", Some "");
      ("Jenis Dokumen", Some "EVLN")].

(** The salutation loop: the line after the first "Dear" line. *)
Fixpoint evln_dear_loop (lines : list string) (i : nat) (todo : list string)
  (data : record) : result record :=
  match todo with
  | [] => Ok data
  | line :: todo' =>
      if is_match (Re.search EvlnPat.dear line) then
        if Nat.ltb (i + 1) (length lines) then
          next_line <- Py.index lines (i + 1) ;;
          let name_candidate := Str.strip next_line in
          if Nat.ltb 3 (Str.len name_candidate)
             && Nat.ltb (Str.len name_candidate) 50
          then Ok (<["Name" := Some (clean_text (Some name_candidate) true)]>
                     data)
          else Ok data
        else Ok data
      else evln_dear_loop lines (S i) todo' data
  end.

(** The body of the field loop of [extract_evln]. *)
Definition evln_line (line : string) (data : record) : result record :=
  name <- Py.getitem data "Name" ;;
  if negb (Py.truthy name) && is_match (Re.search EvlnPat.name line) then
    let parts := Str.split ":" line in
    if Nat.ltb 1 (length parts) then
      p1 <- Py.index parts 1 ;;
      Ok (<["Name" := Some (clean_text (Some p1) true)]> data)
    else Ok data
  else if is_match (Re.search EvlnPat.place_of_birth line) then
    let parts := Str.split ":" line in
    if Nat.ltb 1 (length parts) then
      p1 <- Py.index parts 1 ;;
      let pob_text := Str.strip p1 in
      let pob_cleaned := Re.sub_del EvlnPat.visa_type pob_text in
      Ok (<["Place of Birth" := Some (clean_text (Some pob_cleaned) true)]>
            data)
    else Ok data
  else if is_match (Re.search EvlnPat.date_of_birth line) then
    match Re.search EvlnPat.numeric_date line with
    | Some m => Ok (<["Date of Birth" := Some (format_date (Py.group m 1))]>
                      data)
    | None => Ok data
    end
  else if is_match (Re.search EvlnPat.passport_no line) then
    match Re.search EvlnPat.upper_token line with
    | Some m => Ok (<["Passport No" := Py.group m 1]> data)
    | None => Ok data
    end
  else if is_match (Re.search EvlnPat.passport_expiry line) then
    match Re.search EvlnPat.numeric_date line with
    | Some m => Ok (<["Passport Expiry" := Some (format_date (Py.group m 1))]>
                      data)
    | None => Ok data
    end
  else Ok data.

Fixpoint evln_lines_loop (todo : list string) (data : record)
  : result record :=
  match todo with
  | [] => Ok data
  | line :: todo' =>
      data' <- evln_line line data ;;
      evln_lines_loop todo' data'
  end.

Fixpoint evln_issue_loop (patterns : list Re.regex) (text : string)
  (data : record) : record :=
  match patterns with
  | [] => data
  | pattern :: patterns' =>
      match Re.search pattern text with
      | Some m => <["Date Issue" := Some (format_date (Py.group m 1))]> data
      | None => evln_issue_loop patterns' text data
      end
  end.

Definition extract_evln (text : string) : result record :=
  let data := evln_init in
  let lines := Str.split nl text in
  data <- evln_dear_loop lines 0 lines data ;;
  data <- evln_lines_loop lines data ;;
  date_issue <- Py.getitem data "Date Issue" ;;
  if negb (Py.truthy date_issue)
  then Ok (evln_issue_loop EvlnPat.issue_patterns text data)
  else Ok data.

(** The English month table of [extract_itas]. *)
Definition itas_month_dict : list (string * string) :=
  [("January", "01"); ("February", "02"); ("March", "03"); ("April", "04");
   ("May", "05"); ("June", "06"); ("July", "07"); ("August", "08");
   ("September", "09"); ("October", "10"); ("November", "11");
   ("December", "12")].

Fixpoint assoc (d : list (string * string)) (k : string) : option string :=
  match d with
  | [] => None
  | (k', v) :: d' => if String.eqb k' k then Some v else assoc d' k
  end.

(** [d.get(k, default)] on a table of strings. *)
Definition table_get (d : list (string * string)) (k : value)
  (default : value) : value :=
  match k with
  | Some k' => match assoc d k' with Some v => Some v | None => default end
  | None => default
  end.

(** [m.group(n).strip() if m else None] *)
Definition strip_group_or_none (m : option Re.rmatch) (n : nat)
  : result value :=
  match m with
  | Some m => s <- Py.method "strip" Str.strip (Py.group m n) ;; Ok (Some s)
  | None => Ok None
  end.

(** [format_date(m.group(n)) if m else None] *)
Definition date_group_or_none (m : option Re.rmatch) (n : nat) : value :=
  match m with
  | Some m => Some (format_date (Py.group m n))
  | None => None
  end.

Definition extract_itas (text : string) : result record :=
  let data : record := ∅ in
  let name_match := Re.search ItasPat.name text in
  name <- strip_group_or_none name_match 1 ;;
  let data := <["Name" := name]> data in
  let permit_match := Re.search ItasPat.permit text in
  let data := <["Permit Number" := group_or_none permit_match 1]> data in
  let expiry_match := Re.search ItasPat.expiry text in
  let data := <["Stay Permit Expiry" := date_group_or_none expiry_match 1]>
                data in
  let place_date_birth_match := Re.search ItasPat.place_date_birth text in
  place_date <-
    match place_date_birth_match with
    | Some m =>
        place <- Py.method "strip" Str.strip (Py.group m 1) ;;
        date <- Py.method "strip" Str.strip (Py.group m 2) ;;
        Ok (Some (place +:+ ", " +:+ format_date (Some date)))
    | None => Ok None
    end ;;
  let data := <["Place & Date of Birth" := place_date]> data in
  let passport_match := Re.search ItasPat.passport text in
  let data := <["Passport Number" := group_or_none passport_match 1]> data in
  let passport_expiry_match := Re.search ItasPat.passport_expiry text in
  let data :=
    <["Passport Expiry" := date_group_or_none passport_expiry_match 1]>
      data in
  let nationality_match := Re.search ItasPat.nationality text in
  let data := <["Nationality" := group_or_none nationality_match 1]> data in
  let gender_match := Re.search ItasPat.gender text in
  let data := <["Gender" := group_or_none gender_match 1]> data in
  let address_match := Re.search ItasPat.address text in
  address <- strip_group_or_none address_match 1 ;;
  let data := <["Address" := address]> data in
  let occupation_match := Re.search ItasPat.occupation text in
  occupation <- strip_group_or_none occupation_match 1 ;;
  let data := <["Occupation" := occupation]> data in
  let guarantor_match := Re.search ItasPat.guarantor text in
  guarantor <- strip_group_or_none guarantor_match 1 ;;
  let data := <["Guarantor" := guarantor]> data in
  let date_issue_match := Re.search ItasPat.date_issue text in
  date_issue <-
    match date_issue_match with
    | Some m =>
        let day := Py.group m 2 in
        let month := Py.group m 3 in
        let year := Py.group m 4 in
        let month_num := table_get itas_month_dict month month in
        day2 <- Py.method "zfill" Str.zfill2 day ;;
        let date_str :=
          day2 +:+ "/" +:+ Py.str month_num +:+ "/" +:+ Py.str year in
        Ok (Some (format_date (Some date_str)))
    | None =>
        let fallback_date_match := Re.search ItasPat.fallback_date text in
        Ok (date_group_or_none fallback_date_match 0)
    end ;;
  let data := <["Date Issue" := date_issue]> data in
  let data := <["Jenis Dokumen" := Some "ITAS"]> data in
  Ok data.

Definition extract_itk (text : string) : result record :=
  data <- extract_itas text ;;
  Ok (<["Jenis Dokumen" := Some "ITK"]> data).

(** The Indonesian month table of the decree extractors. *)
Definition notif_month_dict : list (string * string) :=
  [("januari", "01"); ("februari", "02"); ("maret", "03"); ("april", "04");
   ("mei", "05"); ("juni", "06"); ("juli", "07"); ("agustus", "08");
   ("september", "09"); ("oktober", "10"); ("november", "11");
   ("desember", "12")].

Definition extract_notifikasi (text : string) : result record :=
  let data : record :=
    mk [("Nomor Keputusan", Some ""); ("Nama TKA", Some "");
        ("Tempat/Tanggal Lahir", Some ""); ("Kewarganegaraan", Some "");
        ("Alamat Tempat Tinggal", Some ""); ("Nomor Paspor", Some "");
        ("Jabatan", Some ""); ("Lokasi Kerja", Some ""); ("Berlaku", Some "");
        ("Date Issue", Some "")] in
  let find (pattern : Re.regex) : result string :=
    match Re.search pattern text with
    | Some m => Py.method "strip" Str.strip (Py.group m 1)
    | None => Ok ""
    end in
  let nomor_keputusan_match := Re.search NotifPat.nomor_keputusan text in
  nomor <-
    match nomor_keputusan_match with
    | Some m => Py.method "strip" Str.strip (Py.group m 1)
    | None => Ok ""
    end ;;
  let data := <["Nomor Keputusan" := Some nomor]> data in
  v <- find (NotifPat.field "Nama TKA") ;;
  let data := <["Nama TKA" := Some v]> data in
  v <- find (NotifPat.field "Tempat/Tanggal Lahir") ;;
  let data := <["Tempat/Tanggal Lahir" := Some v]> data in
  v <- find (NotifPat.field "Kewarganegaraan") ;;
  let data := <["Kewarganegaraan" := Some v]> data in
  v <- find (NotifPat.field "Alamat Tempat Tinggal") ;;
  let data := <["Alamat Tempat Tinggal" := Some v]> data in
  v <- find (NotifPat.field "Nomor Paspor") ;;
  let data := <["Nomor Paspor" := Some v]> data in
  v <- find (NotifPat.field "Jabatan") ;;
  let data := <["Jabatan" := Some v]> data in
  v <- find (NotifPat.field "Lokasi Kerja") ;;
  let data := <["Lokasi Kerja" := Some v]> data in
  let valid_match := Re.search NotifPat.valid1 text in
  let valid_match :=
    if negb (is_match valid_match) then Re.search NotifPat.valid2 text
    else valid_match in
  let data :=
    match valid_match with
    | Some m =>
        let start_date := format_date (Py.group m 1) in
        let end_date := format_date (Py.group m 2) in
        <["Berlaku" := Some (start_date +:+ " - " +:+ end_date)]> data
    | None => data
    end in
  let date_issue_match := Re.search NotifPat.date_issue text in
  data <-
    match date_issue_match with
    | Some m =>
        day <- Py.method "zfill" Str.zfill2 (Py.group m 1) ;;
        let month_name := Py.group m 2 in
        let year := Py.group m 3 in
        month_key <- Py.method "lower" Str.lower month_name ;;
        let month_num :=
          table_get notif_month_dict (Some month_key) (Some "01") in
        Ok (<["Date Issue" :=
               Some (day +:+ "/" +:+ Py.str month_num +:+ "/" +:+ Py.str year)]>
              data)
    | None => Ok data
    end ;;
  let data := <["Jenis Dokumen" := Some "NOTIFIKASI"]> data in
  Ok data.

Definition extract_dkptka (text : string) : result record :=
  let data : record :=
    mk [("Nomor Keputusan", Some ""); ("Nama TKA", Some "");
        ("Tempat/Tanggal Lahir", Some ""); ("Kewarganegaraan", Some "");
        ("Alamat Tempat Tinggal", Some ""); ("Nomor Paspor", Some "");
        ("Jabatan", Some ""); ("Lokasi Kerja", Some ""); ("Berlaku", Some "");
        ("Date Issue", Some "")] in
  let find (pattern : Re.regex) : result string :=
    match Re.search pattern text with
    | Some m => Py.method "strip" Str.strip (Py.group m 1)
    | None => Ok ""
    end in
  let nomor_keputusan_match := Re.search NotifPat.nomor_keputusan text in
  nomor <-
    match nomor_keputusan_match with
    | Some m => Py.method "strip" Str.strip (Py.group m 1)
    | None => Ok ""
    end ;;
  let data := <["Nomor Keputusan" := Some nomor]> data in
  v <- find (NotifPat.field "Nama TKA") ;;
  let data := <["Nama TKA" := Some v]> data in
  v <- find (NotifPat.field "Tempat/Tanggal Lahir") ;;
  let data := <["Tempat/Tanggal Lahir" := Some v]> data in
  v <- find (NotifPat.field "Kewarganegaraan") ;;
  let data := <["Kewarganegaraan" := Some v]> data in
  v <- find (NotifPat.field "Alamat Tempat Tinggal") ;;
  let data := <["Alamat Tempat Tinggal" := Some v]> data in
  v <- find (NotifPat.field "Nomor Paspor") ;;
  let data := <["Nomor Paspor" := Some v]> data in
  v <- find (NotifPat.field "Jabatan") ;;
  let data := <["Jabatan" := Some v]> data in
  v <- find (NotifPat.field "Lokasi Kerja") ;;
  let data := <["Lokasi Kerja" := Some v]> data in
  let valid_match := Re.search NotifPat.valid1 text in
  let valid_match :=
    if negb (is_match valid_match) then Re.search NotifPat.valid2 text
    else valid_match in
  let data :=
    match valid_match with
    | Some m =>
        let start_date := format_date (Py.group m 1) in
        let end_date := format_date (Py.group m 2) in
        <["Berlaku" := Some (start_date +:+ " - " +:+ end_date)]> data
    | None => data
    end in
  let date_issue_match := Re.search NotifPat.date_issue text in
  data <-
    match date_issue_match with
    | Some m =>
        day <- Py.method "zfill" Str.zfill2 (Py.group m 1) ;;
        let month_name := Py.group m 2 in
        let year := Py.group m 3 in
        month_key <- Py.method "lower" Str.lower month_name ;;
        let month_num :=
          table_get notif_month_dict (Some month_key) (Some "01") in
        Ok (<["Date Issue" :=
               Some (day +:+ "/" +:+ Py.str month_num +:+ "/" +:+ Py.str year)]>
              data)
    | None => Ok data
    end ;;
  let data := <["Jenis Dokumen" := Some "DKPTKA"]> data in
  Ok data.

(** ** Document type detection and dispatch *)

Definition detect_document_type (text : string) : string :=
  if is_match (Re.search DetectPat.sktt text) then "SKTT"
  else if is_match (Re.search DetectPat.evln text) then "EVLN"
  else if is_match (Re.search DetectPat.itas text) then "ITAS"
  else if is_match (Re.search DetectPat.itk text) then "ITK"
  else if is_match (Re.search DetectPat.notifikasi text) then "NOTIFIKASI"
  else if is_match (Re.search DetectPat.dkptka text) then "DKPTKA"
  else "UNKNOWN".

Definition extract_data_by_type (text doc_type : string) : result record :=
  if String.eqb doc_type "SKTT" then extract_sktt text
  else if String.eqb doc_type "EVLN" then extract_evln text
  else if String.eqb doc_type "ITAS" then extract_itas text
  else if String.eqb doc_type "ITK" then extract_itk text
  else if String.eqb doc_type "NOTIFIKASI" then extract_notifikasi text
  else if String.eqb doc_type "DKPTKA" then extract_dkptka text
  else Ok {[ "error" := Some ("Unknown document type: " +:+ doc_type) ]}.

(** ** The per-file loop of [extract_bulk_documents] *)

(** An uploaded file: its name and what reading it through the PDF text
    library gives, the text of each page ([None] for a page without text)
    or the exception raised on the way. *)
Record upload : Type := Upload {
  filename : string;
  pages : result (list value)
}.

(** An element of [all_results]. *)
Inductive entry : Type :=
| Success (file_name document_type : string) (extracted_data : record)
| Error (file_name error : string).



(** The text of a document: the pages that have text, each followed by a
    newline. *)
Definition read_text (page_texts : list value) : string :=
  fold_left
    (fun text page_text =>
       if Py.truthy page_text then text +:+ Py.str page_text +:+ nl
       else text)
    page_texts "".

(** The [try] block of the loop body: the entry it appends, or the
    exception that escapes it. *)
Definition bulk_try (document_type : string) (file : upload) : result entry :=
  if negb (Str.endswith ".pdf" (Str.lower (filename file)))
  then Ok (Error (filename file) "File must be a PDF")
  else
    page_texts <- pages file ;;
    let text := read_text page_texts in
    if negb (Str.nonempty (Str.strip text))
    then Ok (Error (filename file) "No text found in PDF")
    else
      let current_doc_type :=
        if String.eqb (Str.lower document_type) "auto"
        then detect_document_type text else document_type in
      extracted_data <-
        extract_data_by_type text (Str.upper current_doc_type) ;;
      let extracted_data :=
        <["Original_Filename" := Some (filename file)]> extracted_data in
      Ok (Success (filename file) (Str.upper current_doc_type) extracted_data).




(** ** Specification-side definitions *)

Module Spec.
Import Re.

(** All 256 characters. *)
Definition all_ascii : list ascii := List.map ascii_of_nat (seq 0 256).

(** [f] holds of some suffix of [s]. *)
Fixpoint any_suffix (f : string -> bool) (s : string) : bool :=
  f s ||
  match s with
  | EmptyString => false
  | String _ s' => any_suffix f s'
  end.

(** [sem r w new]: the pattern [r] can consume the text [w], recording the
    groups [new] (latest first). *)
Fixpoint sem (r : regex) (w : string) (new : list (nat * string)) : Prop :=
  match r with
  | Eps => w = "" /\ new = []
  | Cls p => (exists c, w = String c "" /\ p c = true) /\ new = []
  | Seq r1 r2 =>
      exists w1 w2 n1 n2,
        w = w1 +:+ w2 /\ new = n2 ++ n1 /\ sem r1 w1 n1 /\ sem r2 w2 n2
  | Alt r1 r2 => sem r1 w new \/ sem r2 w new
  | Many p => Str.forallb p w = true /\ new = []
  | Grp n r1 => exists new', new = (n, w) :: new' /\ sem r1 w new'
  | WordB => w = "" /\ new = []
  end.

(** The pattern matches at the head of [s]. *)
Definition accepts (r : regex) (pv : option ascii) (s : string) : bool :=
  match matches r (MState pv s []) with [] => false | _ => true end.







(** A hyphen or a slash. *)
Definition is_sep (c : ascii) : bool :=
  Chr.eqc c "-"%char || Chr.eqc c "/"%char.

(** The text starts with two digits, a separator, two digits, a separator
    and four digits. *)
Definition date_prefix (s : string) : bool :=
  match s with
  | String a (String b (String c (String d (String e (String f
      (String g (String h (String i (String j _))))))))) =>
      Chr.isdigit a && Chr.isdigit b && is_sep c && Chr.isdigit d
      && Chr.isdigit e && is_sep f && Chr.isdigit g && Chr.isdigit h
      && Chr.isdigit i && Chr.isdigit j
  | _ => false
  end.


(** Exactly DD/MM/YYYY: ten characters, ASCII digits, two slashes. *)
Definition is_ddmmyyyy (s : string) : bool :=
  match s with
  | String a (String b (String c (String d (String e (String f
      (String g (String h (String i (String j EmptyString))))))))) =>
      Chr.isdigit a && Chr.isdigit b && Chr.eqc c "/"%char && Chr.isdigit d
      && Chr.isdigit e && Chr.eqc f "/"%char && Chr.isdigit g
      && Chr.isdigit h && Chr.isdigit i && Chr.isdigit j
  | _ => false
  end.

(** The first ten characters with both separators turned into slashes. *)
Definition slashed (s : string) : string :=
  match s with
  | String a (String b (String _ (String d (String e (String _
      (String g (String h (String i (String j _))))))))) =>
      String a (String b (String "/"%char (String d (String e
        (String "/"%char (String g (String h (String i (String j
          EmptyString)))))))))
  | _ => s
  end.

(** The first date pattern of a text, normalised. *)
Fixpoint first_date (s : string) : option string :=
  if date_prefix s then Some (slashed s)
  else match s with
       | EmptyString => None
       | String _ s' => first_date s'
       end.

(** The string [format_date] builds from a match. *)
Definition rebuilt (m : rmatch) : string :=
  Py.str (Py.group m 1) +:+ "/" +:+ Py.str (Py.group m 2) +:+ "/"
  +:+ Py.str (Py.group m 3).


(** The label fragments that [clean_text] deletes. *)
Definition label_list : list string :=
  ["Reference No"; "Payment Receipt No"; "Jenis Kelamin"; "Kewarganegaraan";
   "Pekerjaan"; "Alamat"].

(** No label fragment occurs in the text. *)
Definition no_label (s : string) : bool :=
  List.forallb (fun l => negb (Str.contains l s)) label_list.

(** A word: not empty, no whitespace. *)
Definition word (w : string) : Prop :=
  w <> "" /\ Str.forallb (fun c => negb (Chr.isspace c)) w = true.

(** One space. *)
Definition sp : string := " ".

(** A character other than a period. *)
Definition not_period (c : ascii) : bool := negb (Chr.eqc "."%char c).

(** A character that [clean_text] keeps. *)
Definition kept' (c : ascii) : bool := negb (negb (Pat.kept c)).






(** The name of the file from its two sanitized parts. *)
Definition file_name (name passport : string) : string :=
  match name, passport with
  | EmptyString, EmptyString => "RENAMED.pdf"
  | _, EmptyString => name +:+ ".pdf"
  | EmptyString, _ => passport +:+ ".pdf"
  | _, _ => name +:+ " " +:+ passport +:+ ".pdf"
  end.


(** Every match of [r] records group [n]. *)
Fixpoint binds (n : nat) (r : regex) : bool :=
  match r with
  | Seq r1 r2 => binds n r1 || binds n r2
  | Alt r1 r2 => binds n r1 && binds n r2
  | Grp k r1 => Nat.eqb k n || binds n r1
  | _ => false
  end.

(** The fields of an ITAS or ITK record that one pattern fills. *)
Definition itas_fields : list (string * regex) :=
  [("Name", ItasPat.name); ("Permit Number", ItasPat.permit);
   ("Stay Permit Expiry", ItasPat.expiry);
   ("Place & Date of Birth", ItasPat.place_date_birth);
   ("Passport Number", ItasPat.passport);
   ("Passport Expiry", ItasPat.passport_expiry);
   ("Nationality", ItasPat.nationality); ("Gender", ItasPat.gender);
   ("Address", ItasPat.address); ("Occupation", ItasPat.occupation);
   ("Guarantor", ItasPat.guarantor)].

(** The keys of an ITAS or ITK record. *)
Definition itas_keys : list string :=
  ["Name"; "Permit Number"; "Stay Permit Expiry"; "Place & Date of Birth";
   "Passport Number"; "Passport Expiry"; "Nationality"; "Gender"; "Address";
   "Occupation"; "Guarantor"; "Date Issue"; "Jenis Dokumen"].

(** The fields of a decree record that one pattern fills. *)
Definition notif_fields : list (string * regex) :=
  [("Nomor Keputusan", NotifPat.nomor_keputusan);
   ("Nama TKA", NotifPat.field "Nama TKA");
   ("Tempat/Tanggal Lahir", NotifPat.field "Tempat/Tanggal Lahir");
   ("Kewarganegaraan", NotifPat.field "Kewarganegaraan");
   ("Alamat Tempat Tinggal", NotifPat.field "Alamat Tempat Tinggal");
   ("Nomor Paspor", NotifPat.field "Nomor Paspor");
   ("Jabatan", NotifPat.field "Jabatan");
   ("Lokasi Kerja", NotifPat.field "Lokasi Kerja");
   ("Date Issue", NotifPat.date_issue)].

(** The keys of a decree record. *)
Definition notif_keys : list string :=
  ["Nomor Keputusan"; "Nama TKA"; "Tempat/Tanggal Lahir"; "Kewarganegaraan";
   "Alamat Tempat Tinggal"; "Nomor Paspor"; "Jabatan"; "Lokasi Kerja";
   "Berlaku"; "Date Issue"; "Jenis Dokumen"].

(** What the decree extractors put in a record before the tag. *)
Definition decree_fields (text : string) (base : record) : Prop :=
  (forall f p, In (f, p) notif_fields ->
     Re.search p text = None -> base !! f = Some (Some ""))
  /\ (forall f, In f notif_keys -> f <> "Jenis Dokumen" ->
      exists s, base !! f = Some (Some s))
  /\ (Re.search NotifPat.valid1 text = None ->
      Re.search NotifPat.valid2 text = None ->
      base !! "Berlaku" = Some (Some ""))
  /\ (base !! "Berlaku" = Some (Some "")
      \/ exists a b,
           base !! "Berlaku" = Some (Some (a +:+ " - " +:+ b))
           /\ is_ddmmyyyy a = true /\ is_ddmmyyyy b = true)
  /\ (base !! "Date Issue" = Some (Some "")
      \/ exists v, base !! "Date Issue" = Some (Some v)
                   /\ is_ddmmyyyy v = true).

(** The fields of an SKTT record that one pattern fills. *)
Definition sktt_fields : list (string * regex) :=
  [("NIK", SkttPat.nik); ("Name", SkttPat.name);
   ("Jenis Kelamin", SkttPat.gender);
   ("Place of Birth", SkttPat.birth_place_date);
   ("Date of Birth", SkttPat.birth_place_date);
   ("Nationality", SkttPat.nationality); ("Occupation", SkttPat.occupation);
   ("Address", SkttPat.address); ("KITAS/KITAP", SkttPat.kitab_kitas);
   ("Passport Expiry", SkttPat.expiry_date)].

(** The keys of an SKTT record. *)
Definition sktt_keys : list string :=
  ["NIK"; "Name"; "Jenis Kelamin"; "Place of Birth"; "Date of Birth";
   "Nationality"; "Occupation"; "Address"; "KITAS/KITAP"; "Passport Expiry";
   "Date Issue"; "Jenis Dokumen"].

(** A field that is null, or a date that went through [format_date]. *)
Definition null_or_formatted (v : option value) : Prop :=
  v = Some None \/ exists x, v = Some (Some (format_date x)).

(** A field that is null, or exactly DD/MM/YYYY. *)
Definition null_or_date (v : option value) : Prop :=
  v = Some None \/ exists s, v = Some (Some s) /\ is_ddmmyyyy s = true.

(** The line patterns that let [extract_evln] fill a field. *)
Definition evln_patterns : list (string * regex) :=
  [("Name", EvlnPat.dear); ("Name", EvlnPat.name);
   ("Place of Birth", EvlnPat.place_of_birth);
   ("Date of Birth", EvlnPat.date_of_birth);
   ("Passport No", EvlnPat.passport_no);
   ("Passport Expiry", EvlnPat.passport_expiry)].

(** The keys of an EVLN record. *)
Definition evln_keys : list string :=
  ["Name"; "Place of Birth"; "Date of Birth"; "Passport No";
   "Passport Expiry"; "Date Issue"; "Jenis Dokumen"].

(** A field that is empty, or exactly DD/MM/YYYY. *)
Definition empty_or_date (v : option value) : Prop :=
  v = Some (Some "")
  \/ exists s, v = Some (Some s) /\ is_ddmmyyyy s = true.

(** A field that is empty, or a date that went through [format_date]. *)
Definition empty_or_formatted (v : option value) : Prop :=
  v = Some (Some "") \/ exists x, v = Some (Some (format_date x)).

(** Some line of the list lets the loops of [extract_evln] touch the
    field. *)
Definition evln_fired (f : string) (lines : list string) : Prop :=
  exists p line,
    In (f, p) evln_patterns /\ In line lines /\ Re.search p line <> None.

(** What holds of the record of [extract_evln] while its loops run. *)
Definition evln_inv (data : record) : Prop :=
  (forall f, In f evln_keys -> exists s, data !! f = Some (Some s))
  /\ empty_or_date (data !! "Date of Birth")
  /\ empty_or_date (data !! "Passport Expiry")
  /\ data !! "Date Issue" = Some (Some "")
  /\ data !! "Jenis Dokumen" = Some (Some "EVLN").




(** The entry that the loop of the bulk endpoint appends for a file. *)
Definition bulk_entry (document_type : string) (file : upload) : entry :=
  match bulk_try document_type file with
  | Ok e => e
  | Raise e => Error (filename file) (exn_str e)
  end.












(** The closed enumeration of layouts. *)
Definition layout_kinds : list string :=
  ["SKTT"; "EVLN"; "ITAS"; "ITK"; "NOTIFIKASI"; "DKPTKA"; "UNKNOWN"].

End Spec.

(** * Strings *)

Module StrFacts.
Import Str.

Lemma app_nil_l (s : string) : "" +:+ s = s.
Proof. reflexivity. Qed.

Lemma app_cons (c : ascii) (s t : string) :
  String c s +:+ t = String c (s +:+ t).
Proof. reflexivity. Qed.

Lemma app_nil_r (s : string) : s +:+ "" = s.
Proof. induction s as [|c s IH]; [reflexivity|]. rewrite app_cons, IH. reflexivity. Qed.

Lemma app_assoc (a b c : string) : (a +:+ b) +:+ c = a +:+ (b +:+ c).
Proof.
  induction a as [|x a IH]; [reflexivity|].
  rewrite !app_cons, IH. reflexivity.
Qed.

Lemma len_app (a b : string) : len (a +:+ b) = len a + len b.
Proof.
  induction a as [|x a IH]; [reflexivity|].
  rewrite app_cons. simpl. rewrite IH. reflexivity.
Qed.

Lemma take_app (a b : string) : take (len a) (a +:+ b) = a.
Proof.
  induction a as [|x a IH]; [destruct b; reflexivity|].
  rewrite app_cons. simpl. rewrite IH. reflexivity.
Qed.

Lemma take_app_diff (a b : string) : take (len (a +:+ b) - len b) (a +:+ b) = a.
Proof.
  rewrite len_app. replace (len a + len b - len b) with (len a) by lia.
  apply take_app.
Qed.

Lemma app_inv_head (a b c : string) : a +:+ b = a +:+ c -> b = c.
Proof.
  induction a as [|x a IH]; [auto|].
  rewrite !app_cons. intros H. injection H. auto.
Qed.

Lemma forallb_app (p : ascii -> bool) (a b : string) :
  forallb p (a +:+ b) = forallb p a && forallb p b.
Proof.
  induction a as [|x a IH]; [reflexivity|].
  rewrite app_cons. simpl. rewrite IH, andb_assoc. reflexivity.
Qed.

End StrFacts.

(** * The matcher against the language of a pattern *)

Module ReFacts.
Import Re Spec StrFacts.

Lemma many_sound p : forall s pv cs st',
  In st' (many p pv s cs) ->
  exists w, s = w +:+ rest st' /\ Str.forallb p w = true /\ caps st' = cs.
Proof.
  induction s as [|c s IH]; intros pv cs st' Hin; simpl in Hin.
  - destruct Hin as [<-|[]]. exists "". auto.
  - destruct (p c) eqn:Hp.
    + apply in_app_iff in Hin. destruct Hin as [Hin|[<-|[]]].
      * apply IH in Hin. destruct Hin as (w & Hs & Hw & Hc).
        exists (String c w). rewrite app_cons, <- Hs. simpl. rewrite Hp, Hw. auto.
      * exists "". auto.
    + destruct Hin as [<-|[]]. exists "". auto.
Qed.

Theorem matches_sound r : forall st st',
  In st' (matches r st) ->
  exists w new,
    rest st = w +:+ rest st' /\ caps st' = new ++ caps st /\ sem r w new.
Proof.
  induction r as [|p|r1 IH1 r2 IH2|r1 IH1 r2 IH2|p|n r IH|];
    intros st st' Hin; simpl in Hin.
  - destruct Hin as [<-|[]]. exists "", []. simpl. auto.
  - destruct (rest st) as [|c s] eqn:Hr; [destruct Hin|].
    destruct (p c) eqn:Hp; [|destruct Hin].
    destruct Hin as [<-|[]]. exists (String c ""), []. simpl. eauto 10.
  - apply in_flat_map in Hin. destruct Hin as (st1 & H1 & H2).
    apply IH1 in H1. apply IH2 in H2.
    destruct H1 as (w1 & n1 & Hr1 & Hc1 & Hs1).
    destruct H2 as (w2 & n2 & Hr2 & Hc2 & Hs2).
    exists (w1 +:+ w2), (n2 ++ n1). split; [|split].
    + rewrite Hr1, Hr2, app_assoc. reflexivity.
    + rewrite Hc2, Hc1, List.app_assoc. reflexivity.
    + simpl. eauto 10.
  - apply in_app_iff in Hin. destruct Hin as [Hin|Hin].
    + apply IH1 in Hin. destruct Hin as (w & new & ? & ? & ?).
      exists w, new. simpl. auto.
    + apply IH2 in Hin. destruct Hin as (w & new & ? & ? & ?).
      exists w, new. simpl. auto.
  - apply many_sound in Hin. destruct Hin as (w & Hs & Hw & Hc).
    exists w, []. simpl. auto.
  - apply in_map_iff in Hin. destruct Hin as (st1 & <- & Hin).
    apply IH in Hin. destruct Hin as (w & new & Hr & Hc & Hs).
    exists w, ((n, w) :: new). simpl. split; [auto|]. split.
    + unfold consumed. rewrite Hr, take_app_diff, Hc. reflexivity.
    + eauto.
  - destruct (xorb _ _); [|destruct Hin].
    destruct Hin as [<-|[]]. exists "", []. simpl. auto.
Qed.

Lemma match_at_sound r pv s m :
  match_at r pv s = Some m ->
  exists w post new, s = w +:+ post /\ m = (0, w) :: new /\ sem r w new.
Proof.
  unfold match_at. destruct (matches _ _) as [|st l] eqn:Hm; [discriminate|].
  intros [= <-].
  assert (Hin : In st (matches (Grp 0 r) (MState pv s []))) by (rewrite Hm; left; auto).
  apply matches_sound in Hin. destruct Hin as (w & new & Hr & Hc & Hs).
  simpl in Hr, Hc, Hs. destruct Hs as (new' & -> & Hs).
  exists w, (rest st), new'. rewrite List.app_nil_r in Hc. auto.
Qed.

Lemma search_from_sound r : forall s pv m,
  search_from r pv s = Some m ->
  exists pre w post new,
    s = pre +:+ w +:+ post /\ m = (0, w) :: new /\ sem r w new.
Proof.
  induction s as [|c s IH]; intros pv m H; simpl in H.
  - destruct (match_at r pv "") eqn:Hm; [|discriminate].
    injection H as ->. apply match_at_sound in Hm.
    destruct Hm as (w & post & new & ? & ? & ?). exists "", w, post, new. auto.
  - destruct (match_at r pv (String c s)) eqn:Hm.
    + injection H as ->. apply match_at_sound in Hm.
      destruct Hm as (w & post & new & ? & ? & ?). exists "", w, post, new. auto.
    + apply IH in H. destruct H as (pre & w & post & new & -> & ? & ?).
      exists (String c pre), w, post, new. auto.
Qed.

Theorem search_sound r s m :
  search r s = Some m ->
  exists pre w post new,
    s = pre +:+ w +:+ post /\ m = (0, w) :: new /\ sem r w new.
Proof. apply search_from_sound. Qed.

End ReFacts.

(** * Characters *)

Module ChrFacts.
Import Chr Spec.

Lemma all_ascii_complete (c : ascii) : In c all_ascii.
Proof.
  assert (H : existsb (Ascii.eqb c) all_ascii = true)
    by (destruct c as [[] [] [] [] [] [] [] []]; vm_compute; reflexivity).
  apply existsb_exists in H. destruct H as (x & Hx & Heq).
  apply Ascii.eqb_eq in Heq. subst. exact Hx.
Qed.

(** A property checked on every character holds of every character. *)
Lemma forall_ascii (p : ascii -> bool) :
  List.forallb p all_ascii = true -> forall c, p c = true.
Proof.
  intros H c. rewrite List.forallb_forall in H. apply H, all_ascii_complete.
Qed.

Lemma forall_ascii2 (p : ascii -> ascii -> bool) :
  List.forallb (fun a => List.forallb (p a) all_ascii) all_ascii = true ->
  forall a b, p a b = true.
Proof.
  intros H a b. apply (forall_ascii (p a)). revert a. apply forall_ascii. exact H.
Qed.

Lemma ci_eqc (c x : ascii) : ci (eqc c) x = eqc (upper c) (upper x).
Proof.
  apply Bool.eqb_prop. revert c x. apply forall_ascii2.
  vm_compute. reflexivity.
Qed.

Lemma eqc_eq (a b : ascii) : eqc a b = true <-> a = b.
Proof. apply Ascii.eqb_eq. Qed.

Lemma eqc_refl (a : ascii) : eqc a a = true.
Proof. apply Ascii.eqb_refl. Qed.

End ChrFacts.

(** * Literal patterns *)

Module LitFacts.
Import Re Spec StrFacts ReFacts ChrFacts.




Lemma is_match_match_at r pv s : is_match (match_at r pv s) = accepts r pv s.
Proof.
  unfold match_at, accepts. simpl.
  destruct (matches r _); reflexivity.
Qed.






Lemma any_suffix_ext (f g : string -> bool) s :
  (forall x, f x = g x) -> any_suffix f s = any_suffix g s.
Proof.
  intros H. induction s as [|c s IH]; simpl; rewrite H; [|rewrite IH]; reflexivity.
Qed.







End LitFacts.

(** * The classifier *)

Module DetectFacts.
Import Re Spec LitFacts.


End DetectFacts.

(** * Inversion of [sem] on the pattern notation *)

Module SemFacts.
Import Re Spec StrFacts ReFacts ChrFacts.

Lemma sem_chr c w new : sem (chr c) w new -> w = String c "" /\ new = [].
Proof.
  simpl. intros [(x & -> & Hx) ->]. apply eqc_eq in Hx. subst. auto.
Qed.

Lemma sem_lit s : forall w new, sem (lit s) w new -> w = s /\ new = [].
Proof.
  induction s as [|c s IH]; intros w new H.
  - simpl in H. exact H.
  - destruct s as [|c' s].
    + apply sem_chr in H. exact H.
    + change (lit (String c (String c' s)))
        with (Seq (chr c) (lit (String c' s))) in H.
      simpl sem in H. destruct H as (w1 & w2 & n1 & n2 & -> & -> & H1 & H2).
      apply sem_chr in H1. destruct H1 as [-> ->].
      apply IH in H2. destruct H2 as [-> ->]. auto.
Qed.

Lemma sem_chr_i c w new :
  sem (chr_i c) w new -> Str.upper w = Str.upper (String c "") /\ new = [].
Proof.
  simpl. intros [(x & -> & Hx) ->]. rewrite ci_eqc in Hx.
  apply eqc_eq in Hx. unfold Str.upper. simpl. rewrite Hx. auto.
Qed.

Lemma upper_app a b : Str.upper (a +:+ b) = Str.upper a +:+ Str.upper b.
Proof.
  induction a as [|x a IH]; [reflexivity|].
  rewrite app_cons. unfold Str.upper in *. simpl. rewrite IH. reflexivity.
Qed.

Lemma sem_lit_i s : forall w new,
  sem (lit_i s) w new -> Str.upper w = Str.upper s /\ new = [].
Proof.
  induction s as [|c s IH]; intros w new H.
  - simpl in H. destruct H as [-> ->]. auto.
  - destruct s as [|c' s].
    + apply sem_chr_i in H. exact H.
    + change (lit_i (String c (String c' s)))
        with (Seq (chr_i c) (lit_i (String c' s))) in H.
      simpl sem in H. destruct H as (w1 & w2 & n1 & n2 & -> & -> & H1 & H2).
      apply sem_chr_i in H1. destruct H1 as [H1 ->].
      apply IH in H2. destruct H2 as [H2 ->].
      rewrite upper_app, H1, H2. auto.
Qed.

Lemma sem_many1 p w new :
  sem (many1 p) w new -> Str.forallb p w = true /\ w <> "" /\ new = [].
Proof.
  simpl. intros (w1 & w2 & n1 & n2 & -> & -> & [(c & -> & Hc) ->] & [Hw ->]).
  rewrite app_cons, app_nil_l. simpl. rewrite Hc, Hw. repeat split. discriminate.
Qed.

Lemma sem_seq r1 r2 w new :
  sem (Seq r1 r2) w new ->
  exists w1 w2 n1 n2,
    w = w1 +:+ w2 /\ new = n2 ++ n1 /\ sem r1 w1 n1 /\ sem r2 w2 n2.
Proof. exact (fun H => H). Qed.

Lemma sem_alt r1 r2 w new :
  sem (Alt r1 r2) w new -> sem r1 w new \/ sem r2 w new.
Proof. exact (fun H => H). Qed.

Lemma sem_grp n r w new :
  sem (Grp n r) w new -> exists new', new = (n, w) :: new' /\ sem r w new'.
Proof. exact (fun H => H). Qed.

Lemma sem_cls p w new :
  sem (Cls p) w new -> exists c, w = String c "" /\ p c = true /\ new = [].
Proof. simpl. intros [(c & ? & ?) ?]. eauto. Qed.

Lemma sem_many p w new :
  sem (Many p) w new -> Str.forallb p w = true /\ new = [].
Proof. exact (fun H => H). Qed.

Lemma sem_eps w new : sem Eps w new -> w = "" /\ new = [].
Proof. exact (fun H => H). Qed.

Lemma sem_wordb w new : sem WordB w new -> w = "" /\ new = [].
Proof. exact (fun H => H). Qed.

End SemFacts.

(** Decompose a hypothesis [sem r w new] along the pattern [r]; literals
    and repetitions are taken whole. *)
Ltac sem_step :=
  match goal with
  | H : Spec.sem (Re.lit _) _ _ |- _ =>
      apply SemFacts.sem_lit in H; destruct H as [? ?]
  | H : Spec.sem (Re.lit_i _) _ _ |- _ =>
      apply SemFacts.sem_lit_i in H; destruct H as [? ?]
  | H : Spec.sem (Re.chr _) _ _ |- _ =>
      apply SemFacts.sem_chr in H; destruct H as [? ?]
  | H : Spec.sem (Re.chr_i _) _ _ |- _ =>
      apply SemFacts.sem_chr_i in H; destruct H as [? ?]
  | H : Spec.sem (Re.many1 _) _ _ |- _ =>
      apply SemFacts.sem_many1 in H; destruct H as (? & ? & ?)
  | H : Spec.sem (Re.seqs _) _ _ |- _ => cbn [Re.seqs] in H
  | H : Spec.sem (Re.alts _ _) _ _ |- _ => cbn [Re.alts] in H
  | H : Spec.sem (Re.opt _) _ _ |- _ => unfold Re.opt in H
  | H : Spec.sem (Re.rep _ _) _ _ |- _ => cbn [Re.rep] in H
  | H : Spec.sem (Re.Seq _ _) _ _ |- _ =>
      apply SemFacts.sem_seq in H; destruct H as (? & ? & ? & ? & ? & ? & ? & ?)
  | H : Spec.sem (Re.Alt _ _) _ _ |- _ =>
      apply SemFacts.sem_alt in H; destruct H as [H|H]
  | H : Spec.sem (Re.Grp _ _) _ _ |- _ =>
      apply SemFacts.sem_grp in H; destruct H as (? & ? & ?)
  | H : Spec.sem (Re.Cls _) _ _ |- _ =>
      apply SemFacts.sem_cls in H; destruct H as (? & ? & ? & ?)
  | H : Spec.sem (Re.Many _) _ _ |- _ =>
      apply SemFacts.sem_many in H; destruct H as [? ?]
  | H : Spec.sem Re.Eps _ _ |- _ =>
      apply SemFacts.sem_eps in H; destruct H as [? ?]
  | H : Spec.sem Re.WordB _ _ |- _ =>
      apply SemFacts.sem_wordb in H; destruct H as [? ?]
  end.

Ltac sem_inv := repeat sem_step; subst.

Module FormatDateFacts.
Import Re Spec StrFacts ReFacts ChrFacts SemFacts LitFacts.

Lemma dsep_is_sep c : Pat.dsep c = is_sep c.
Proof.
  apply Bool.eqb_prop. revert c. apply forall_ascii. vm_compute. reflexivity.
Qed.

(** What a match of the date pattern looks like. *)
Lemma sem_date w new :
  sem Pat.date w new ->
  exists a b c d e f g h i j,
    w = String a (String b (String c (String d (String e (String f
          (String g (String h (String i (String j ""))))))))) /\
    new = [(3, String g (String h (String i (String j ""))));
           (2, String d (String e "")); (1, String a (String b ""))] /\
    date_prefix w = true.
Proof.
  unfold Pat.date. intros H. sem_inv.
  do 10 eexists. split; [reflexivity|]. split; [reflexivity|].
  simpl. rewrite <- !dsep_is_sep.
  repeat match goal with H : _ = true |- _ => rewrite H; clear H end.
  reflexivity.
Qed.

End FormatDateFacts.

Module FormatDate.
Import Re Spec StrFacts ReFacts ChrFacts SemFacts LitFacts FormatDateFacts.

Lemma match_at_date_some pv s m :
  match_at Pat.date pv s = Some m ->
  date_prefix s = true /\ rebuilt m = slashed s.
Proof.
  intros H. apply match_at_sound in H.
  destruct H as (w & post & new & -> & -> & Hs).
  apply sem_date in Hs.
  destruct Hs as (a & b & c & d & e & f & g & h & i & j & -> & -> & Hp).
  split; [exact Hp|reflexivity].
Qed.

Lemma date_prefix_accepts pv s :
  date_prefix s = true -> accepts Pat.date pv s = true.
Proof.
  destruct s as [|a [|b [|c [|d [|e [|f [|g [|h [|i [|j t]]]]]]]]]];
    try discriminate.
  cbn [date_prefix]. rewrite <- !dsep_is_sep. intros H.
  do 9 (apply andb_true_iff in H; let H' := fresh in destruct H as [H H']).
  unfold accepts, Pat.date.
  cbn [matches seqs rep flat_map List.map app rest prev caps].
  repeat match goal with
         | H : ?p ?x = true |- context [?p ?x] =>
             rewrite H;
             cbn [matches seqs rep flat_map List.map app rest prev caps]
         end.
  reflexivity.
Qed.

Lemma match_at_date pv s :
  match match_at Pat.date pv s with
  | Some m => date_prefix s = true /\ rebuilt m = slashed s
  | None => date_prefix s = false
  end.
Proof.
  destruct (match_at Pat.date pv s) as [m|] eqn:Hm.
  - apply match_at_date_some in Hm. exact Hm.
  - destruct (date_prefix s) eqn:Hp; [|reflexivity].
    apply (date_prefix_accepts pv) in Hp.
    rewrite <- is_match_match_at, Hm in Hp. discriminate.
Qed.

Lemma search_from_date s : forall pv,
  match search_from Pat.date pv s with
  | Some m => first_date s = Some (rebuilt m)
  | None => first_date s = None
  end.
Proof.
  induction s as [|c s IH]; intros pv; cbn [search_from first_date].
  - pose proof (match_at_date pv "") as H.
    destruct (match_at Pat.date pv ""); [destruct H; discriminate|reflexivity].
  - pose proof (match_at_date pv (String c s)) as H.
    destruct (match_at Pat.date pv (String c s)) as [m|].
    + destruct H as [-> ->]. reflexivity.
    + rewrite H. apply IH.
Qed.

(** [format_date] on a string: the first date pattern with slashes, or the
    string itself when it holds none. *)
Theorem format_date_first_date s :
  format_date (Some s) = match first_date s with Some d => d | None => s end.
Proof.
  unfold format_date. destruct s as [|c s]; [reflexivity|].
  cbn [Py.truthy Str.nonempty negb Py.str].
  pose proof (search_from_date (String c s) None) as H. unfold search.
  destruct (search_from Pat.date None (String c s)) as [m|]; rewrite H; reflexivity.
Qed.

Lemma format_date_none : format_date None = "".
Proof. reflexivity. Qed.


Lemma slashed_is_ddmmyyyy s : date_prefix s = true -> is_ddmmyyyy (slashed s) = true.
Proof.
  destruct s as [|a [|b [|c [|d [|e [|f [|g [|h [|i [|j t]]]]]]]]]];
    try discriminate.
  cbn [date_prefix slashed is_ddmmyyyy]. intros H.
  do 9 (apply andb_true_iff in H; let H' := fresh in destruct H as [H H']).
  repeat match goal with
         | H : ?p ?x = true |- context [?p ?x] => rewrite H
         end.
  reflexivity.
Qed.



(** On a string that is exactly a date with hyphens or slashes. *)
Lemma format_date_exact s :
  date_prefix s = true -> Str.len s = 10 ->
  format_date (Some s) = slashed s /\ is_ddmmyyyy (format_date (Some s)) = true.
Proof.
  intros Hp Hl. rewrite format_date_first_date.
  destruct s as [|c s]; [discriminate|]. cbn [first_date]. rewrite Hp.
  split; [reflexivity|]. apply slashed_is_ddmmyyyy. exact Hp.
Qed.

End FormatDate.

(** * Strings: stripping, splitting, joining *)

Module StripFacts.
Import Str Spec StrFacts.

Lemma forallb_filter p s : forallb p (filter p s) = true.
Proof.
  induction s as [|c s IH]; [reflexivity|]. simpl.
  destruct (p c) eqn:Hp; [simpl; rewrite Hp|]; exact IH.
Qed.

Lemma forallb_filter_other p q s :
  forallb q s = true -> forallb q (filter p s) = true.
Proof.
  induction s as [|c s IH]; [reflexivity|]. simpl.
  intros H. apply andb_true_iff in H. destruct H as [Hc Hs].
  destruct (p c); [simpl; rewrite Hc|]; auto.
Qed.


Lemma filter_id p s : forallb p s = true -> filter p s = s.
Proof.
  induction s as [|c s IH]; [reflexivity|]. simpl.
  intros H. apply andb_true_iff in H. destruct H as [-> Hs].
  rewrite IH; auto.
Qed.

Lemma forallb_lstrip q s : forallb q s = true -> forallb q (lstrip s) = true.
Proof.
  induction s as [|c s IH]; [reflexivity|]. simpl.
  intros H. destruct (Chr.isspace c).
  - apply andb_true_iff in H. destruct H. auto.
  - exact H.
Qed.

Lemma forallb_rstrip q s : forallb q s = true -> forallb q (rstrip s) = true.
Proof.
  induction s as [|c s IH]; [reflexivity|]. simpl.
  intros H. apply andb_true_iff in H. destruct H as [Hc Hs].
  specialize (IH Hs). destruct (rstrip s) as [|c' r].
  - destruct (Chr.isspace c); [reflexivity|]. simpl. rewrite Hc. reflexivity.
  - cbn [forallb]. rewrite Hc. exact IH.
Qed.

Lemma forallb_strip q s : forallb q s = true -> forallb q (strip s) = true.
Proof. intros H. apply forallb_rstrip, forallb_lstrip, H. Qed.






Lemma word_cons c w :
  Chr.isspace c = false ->
  forallb (fun c => negb (Chr.isspace c)) w = true -> word (String c w).
Proof.
  intros Hc Hw. split; [discriminate|]. simpl. rewrite Hc, Hw. reflexivity.
Qed.

Lemma split_ws_words s : Forall word (split_ws s).
Proof.
  induction s as [|c s IH]; simpl; [constructor|].
  destruct (Chr.isspace c) eqn:Hc; [exact IH|].
  destruct s as [|c' s'].
  - constructor; [|constructor]. apply word_cons; auto.
  - destruct (Chr.isspace c') eqn:Hc'.
    + constructor; [apply word_cons; auto|exact IH].
    + destruct (split_ws (String c' s')) as [|w ws].
      * constructor; [apply word_cons; auto|constructor].
      * inversion IH as [|? ? [Hw1 Hw2] Hws]; subst.
        constructor; [|exact Hws]. apply word_cons; auto.
Qed.

Lemma split_ws_forallb q s :
  forallb q s = true -> Forall (fun w => forallb q w = true) (split_ws s).
Proof.
  induction s as [|c s IH]; simpl; [constructor|].
  intros H. apply andb_true_iff in H. destruct H as [Hq Hs].
  specialize (IH Hs).
  destruct (Chr.isspace c) eqn:Hc; [exact IH|].
  destruct s as [|c' s'].
  - constructor; [|constructor]. simpl. rewrite Hq. reflexivity.
  - destruct (Chr.isspace c') eqn:Hc'.
    + constructor; [simpl; rewrite Hq; reflexivity|exact IH].
    + destruct (split_ws (String c' s')) as [|w ws].
      * constructor; [simpl; rewrite Hq; reflexivity|constructor].
      * inversion IH as [|? ? Hw Hws]; subst.
        constructor; [|exact Hws]. simpl. rewrite Hq, Hw. reflexivity.
Qed.

Lemma split_ws_word w : word w -> split_ws w = [w].
Proof.
  induction w as [|c w IH]; intros [Hne Hw]; [congruence|].
  simpl in Hw. apply andb_true_iff in Hw. destruct Hw as [Hc Hw].
  apply negb_true_iff in Hc. simpl. rewrite Hc.
  destruct w as [|c' w']; [reflexivity|].
  assert (Hword : word (String c' w')) by (split; [discriminate|exact Hw]).
  simpl in Hw. apply andb_true_iff in Hw. destruct Hw as [Hc' _].
  apply negb_true_iff in Hc'. rewrite Hc'.
  rewrite (IH Hword). reflexivity.
Qed.

Lemma split_ws_word_app w r :
  word w -> split_ws (w +:+ sp +:+ r) = w :: split_ws r.
Proof.
  induction w as [|c w IH]; intros [Hne Hw]; [congruence|].
  simpl in Hw. apply andb_true_iff in Hw. destruct Hw as [Hc Hw].
  apply negb_true_iff in Hc. rewrite app_cons.
  cbn [split_ws]. rewrite Hc.
  destruct w as [|c' w'].
  - rewrite app_nil_l. unfold sp. rewrite app_cons, app_nil_l.
    replace (Chr.isspace " ") with true by reflexivity.
    cbn [split_ws]. replace (Chr.isspace " ") with true by reflexivity.
    reflexivity.
  - assert (Hword : word (String c' w')) by (split; [discriminate|exact Hw]).
    simpl in Hw. apply andb_true_iff in Hw. destruct Hw as [Hc' _].
    apply negb_true_iff in Hc'. rewrite app_cons, Hc'.
    rewrite <- app_cons. rewrite (IH Hword). reflexivity.
Qed.

Lemma split_ws_join ws : Forall word ws -> split_ws (join sp ws) = ws.
Proof.
  induction ws as [|w ws IH]; intros H; [reflexivity|].
  inversion H as [|? ? Hw Hws]; subst.
  destruct ws as [|w' ws'].
  - simpl. apply split_ws_word, Hw.
  - change (join sp (w :: w' :: ws')) with (w +:+ sp +:+ join sp (w' :: ws')).
    rewrite split_ws_word_app by exact Hw. rewrite IH by exact Hws. reflexivity.
Qed.

Lemma lstrip_word_app w r : word w -> lstrip (w +:+ r) = w +:+ r.
Proof.
  intros [Hne Hw]. destruct w as [|c w]; [congruence|].
  simpl in Hw. apply andb_true_iff in Hw. destruct Hw as [Hc _].
  apply negb_true_iff in Hc. rewrite app_cons. simpl. rewrite Hc. reflexivity.
Qed.

Lemma rstrip_word w : word w -> rstrip w = w.
Proof.
  induction w as [|c w IH]; intros [Hne Hw]; [congruence|].
  simpl in Hw. apply andb_true_iff in Hw. destruct Hw as [Hc Hw].
  apply negb_true_iff in Hc. simpl.
  destruct w as [|c' w'].
  - simpl. rewrite Hc. reflexivity.
  - rewrite IH by (split; [discriminate|exact Hw]). reflexivity.
Qed.

Lemma rstrip_app a b : rstrip b <> "" -> rstrip (a +:+ b) = a +:+ rstrip b.
Proof.
  intros Hb. induction a as [|c a IH]; [reflexivity|].
  rewrite !app_cons. simpl. rewrite IH.
  destruct (a +:+ rstrip b) eqn:Ha; [|reflexivity].
  destruct a; [|discriminate]. rewrite app_nil_l in Ha. congruence.
Qed.

Lemma rstrip_join ws : Forall word ws -> rstrip (join sp ws) = join sp ws.
Proof.
  induction ws as [|w ws IH]; intros H; [reflexivity|].
  inversion H as [|? ? Hw Hws]; subst.
  destruct ws as [|w' ws'].
  - simpl. apply rstrip_word, Hw.
  - change (join sp (w :: w' :: ws')) with (w +:+ sp +:+ join sp (w' :: ws')).
    rewrite <- app_assoc. rewrite rstrip_app.
    + rewrite IH by exact Hws. reflexivity.
    + rewrite IH by exact Hws.
      inversion Hws as [|? ? [Hne' _] _]; subst.
      destruct ws' as [|w'' ws'']; simpl.
      * exact Hne'.
      * destruct w'; [congruence|]. rewrite app_cons. discriminate.
Qed.

Lemma strip_join ws : Forall word ws -> strip (join sp ws) = join sp ws.
Proof.
  intros H. unfold strip.
  destruct ws as [|w ws]; [reflexivity|].
  inversion H as [|? ? Hw Hws]; subst.
  assert (Hl : lstrip (join sp (w :: ws)) = join sp (w :: ws)).
  { destruct ws as [|w' ws'].
    - simpl. rewrite <- (app_nil_r w). apply lstrip_word_app, Hw.
    - apply lstrip_word_app, Hw. }
  rewrite Hl. apply rstrip_join, H.
Qed.

Lemma forallb_join q ws :
  q " "%char = true -> Forall (fun w => forallb q w = true) ws ->
  forallb q (join sp ws) = true.
Proof.
  intros Hsp. induction ws as [|w ws IH]; intros H; [reflexivity|].
  inversion H as [|? ? Hw Hws]; subst.
  destruct ws as [|w' ws']; [exact Hw|].
  change (join sp (w :: w' :: ws')) with (w +:+ sp +:+ join sp (w' :: ws')).
  rewrite !forallb_app, Hw, (IH Hws). simpl. rewrite Hsp. reflexivity.
Qed.

End StripFacts.

(** * [re.sub] with an empty replacement *)

Module SubFacts.
Import Re Spec StrFacts ReFacts ChrFacts SemFacts LitFacts.

Lemma match_at_cls p pv c s :
  match_at (Cls p) pv (String c s)
  = if p c then Some [(0, String c "")] else None.
Proof.
  unfold match_at. simpl. destruct (p c); [|reflexivity].
  simpl. unfold consumed. simpl rest.
  replace (Str.len (String c s) - Str.len s) with 1 by (simpl; lia).
  reflexivity.
Qed.

(** Deleting the matches of a one-character class is filtering. *)
Lemma sub_del_cls p s :
  sub_del (Cls p) s = Str.filter (fun c => negb (p c)) s.
Proof.
  unfold sub_del. generalize (@None ascii).
  induction s as [|c s IH]; intros pv; [reflexivity|].
  cbn [sub_go Str.filter]. rewrite match_at_cls.
  destruct (p c); simpl; rewrite IH; reflexivity.
Qed.

(** Where the pattern matches at no suffix, nothing is deleted. *)
Lemma sub_go_id r : forall s pv,
  (forall pv' pre t, s = pre +:+ t -> match_at r pv' t = None) ->
  sub_go r pv 0 s = s.
Proof.
  induction s as [|c s IH]; intros pv H; [reflexivity|].
  cbn [sub_go]. rewrite (H pv "" (String c s) eq_refl).
  rewrite IH; [reflexivity|].
  intros pv' pre t ->. apply (H pv' (String c pre) t). reflexivity.
Qed.

End SubFacts.

(** * Groups of a match *)

Module GroupFacts.
Import Re Spec StrFacts ReFacts ChrFacts SemFacts.

Lemma group_app_l (a b : rmatch) n x :
  group a n = Some x -> group (a ++ b) n = Some x.
Proof.
  induction a as [|[k s] a IH]; simpl; [discriminate|].
  destruct (Nat.eqb k n); auto.
Qed.

Lemma group_app_r (a b : rmatch) n x :
  group b n = Some x -> exists y, group (a ++ b) n = Some y.
Proof.
  intros Hb. induction a as [|[k s] a IH]; simpl; [eauto|].
  destruct (Nat.eqb k n); eauto.
Qed.

(** A group that every alternative of the pattern records is bound in
    every match. *)
Lemma sem_binds n r : forall w new,
  sem r w new -> binds n r = true -> exists x, group new n = Some x.
Proof.
  induction r as [|p|r1 IH1 r2 IH2|r1 IH1 r2 IH2|p|k r IH|];
    intros w new Hs Hb; simpl in Hb; try discriminate.
  - destruct Hs as (w1 & w2 & n1 & n2 & -> & -> & H1 & H2).
    destruct (binds n r2) eqn:Hb2.
    + destruct (IH2 _ _ H2 eq_refl) as [x Hx]. exists x. apply group_app_l, Hx.
    + rewrite orb_false_r in Hb. destruct (IH1 _ _ H1 Hb) as [x Hx].
      eapply group_app_r, Hx.
  - apply andb_true_iff in Hb. destruct Hb as [Hb1 Hb2].
    destruct Hs as [Hs|Hs]; eauto.
  - destruct Hs as (new' & -> & Hs). simpl.
    destruct (Nat.eqb k n) eqn:Hk; [eauto|]. simpl in Hb. eauto.
Qed.

Lemma search_binds r text m n :
  search r text = Some m -> binds n r = true ->
  exists x, Py.group m n = Some x.
Proof.
  intros Hm Hb. apply search_sound in Hm.
  destruct Hm as (pre & w & post & new & _ & -> & Hs).
  unfold Py.group. simpl. destruct n as [|n]; [eauto|]. simpl.
  eapply sem_binds; eauto.
Qed.

Lemma strip_group_ok r text n :
  binds n r = true ->
  exists v, strip_group_or_none (search r text) n = Ok v.
Proof.
  intros Hb. unfold strip_group_or_none.
  destruct (search r text) as [m|] eqn:Hm; [|eauto].
  destruct (search_binds _ _ _ _ Hm Hb) as [x ->]. simpl. eauto.
Qed.

End GroupFacts.

(** * The dates the patterns capture *)

Module ShapeFacts.
Import Re Spec StrFacts ReFacts ChrFacts SemFacts GroupFacts FormatDateFacts
  FormatDate.

(** Close a goal on the shape of a captured date. *)
Ltac date_shape :=
  lazy [String.append]; cbn [date_prefix Str.len String.length];
  rewrite <- ?dsep_is_sep;
  repeat match goal with
         | H : ?p ?x = true |- context [?p ?x] => rewrite H
         end;
  try reflexivity.

Lemma search_numeric_date line m :
  search EvlnPat.numeric_date line = Some m ->
  exists w, Py.group m 1 = Some w /\ date_prefix w = true /\ Str.len w = 10.
Proof.
  intros H. apply search_sound in H.
  destruct H as (pre & w & post & new & _ & -> & Hs).
  unfold EvlnPat.numeric_date in Hs. sem_inv;
    (eexists; split; [reflexivity|split; date_shape]).
Qed.

Lemma search_sktt_date_issue line m :
  search SkttPat.date_issue line = Some m ->
  exists w, Py.group m 2 = Some w /\ date_prefix w = true /\ Str.len w = 10.
Proof.
  intros H. apply search_sound in H.
  destruct H as (pre & w & post & new & _ & -> & Hs).
  unfold SkttPat.date_issue in Hs. sem_inv.
  eexists; split; [reflexivity|split; date_shape].
Qed.

Lemma sem_date10 w new :
  sem NotifPat.date10 w new ->
  new = [] /\ date_prefix w = true /\ Str.len w = 10.
Proof.
  unfold NotifPat.date10. intros Hs. sem_inv.
  split; [reflexivity|split; date_shape].
Qed.

Lemma search_valid1 text m :
  search NotifPat.valid1 text = Some m ->
  exists w1 w2,
    Py.group m 1 = Some w1 /\ Py.group m 2 = Some w2 /\
    (date_prefix w1 = true /\ Str.len w1 = 10) /\
    (date_prefix w2 = true /\ Str.len w2 = 10).
Proof.
  intros H. apply search_sound in H.
  destruct H as (pre & w & post & new & _ & -> & Hs).
  unfold NotifPat.valid1, NotifPat.sd in Hs.
  repeat match goal with
         | H : sem NotifPat.date10 _ _ |- _ =>
             apply sem_date10 in H; destruct H as (? & ? & ?)
         | _ => sem_step
         end; subst;
    (do 2 eexists; split; [reflexivity|split; [reflexivity|auto]]).
Qed.

Lemma search_valid2 text m :
  search NotifPat.valid2 text = Some m ->
  exists w1 w2,
    Py.group m 1 = Some w1 /\ Py.group m 2 = Some w2 /\
    (date_prefix w1 = true /\ Str.len w1 = 10) /\
    (date_prefix w2 = true /\ Str.len w2 = 10).
Proof.
  intros H. apply search_sound in H.
  destruct H as (pre & w & post & new & _ & -> & Hs).
  unfold NotifPat.valid2, NotifPat.sd in Hs.
  repeat match goal with
         | H : sem NotifPat.date10 _ _ |- _ =>
             apply sem_date10 in H; destruct H as (? & ? & ?)
         | _ => sem_step
         end; subst;
    (do 2 eexists; split; [reflexivity|split; [reflexivity|auto]]).
Qed.

Lemma search_notif_date_issue text m :
  search NotifPat.date_issue text = Some m ->
  exists d mo y,
    Py.group m 1 = Some d /\ Py.group m 2 = Some mo /\ Py.group m 3 = Some y /\
    Str.forallb Chr.isdigit d = true /\ (Str.len d = 1 \/ Str.len d = 2) /\
    Str.forallb Chr.isdigit y = true /\ Str.len y = 4.
Proof.
  intros H. apply search_sound in H.
  destruct H as (pre & w & post & new & _ & -> & Hs).
  unfold NotifPat.date_issue, EvlnPat.digits12 in Hs. sem_inv;
    (do 3 eexists; split; [reflexivity|]; split; [reflexivity|];
     split; [reflexivity|];
     lazy [String.append]; cbn [Str.forallb Str.len String.length];
     repeat match goal with
            | H : ?p ?x = true |- context [?p ?x] => rewrite H
            end; auto).
Qed.

(** The month number of the decree extractors is two digits, whatever the
    key. *)
Lemma notif_month_num k :
  exists a b,
    table_get notif_month_dict (Some k) (Some "01")
    = Some (String a (String b ""))
    /\ Chr.isdigit a = true /\ Chr.isdigit b = true.
Proof.
  unfold table_get, notif_month_dict, assoc.
  repeat match goal with
         | |- context [String.eqb ?x k] => destruct (String.eqb x k)
         end;
    do 2 eexists; (split; [reflexivity|split; reflexivity]).
Qed.

(** A formatted captured date is a normalised date. *)
Lemma format_date_shape w :
  date_prefix w = true -> Str.len w = 10 ->
  is_ddmmyyyy (format_date (Some w)) = true.
Proof. intros Hp Hl. apply format_date_exact; assumption. Qed.

End ShapeFacts.

Module ItasFacts.
Import Re Spec StrFacts ReFacts ChrFacts SemFacts GroupFacts FormatDate.

Lemma strip_group_none r text n v :
  search r text = None -> strip_group_or_none (search r text) n = Ok v ->
  v = None.
Proof. intros ->. simpl. congruence. Qed.

Lemma itas_place_date_ok text :
  exists v,
    match Re.search ItasPat.place_date_birth text with
    | Some m =>
        place <- Py.method "strip" Str.strip (Py.group m 1) ;;
        date <- Py.method "strip" Str.strip (Py.group m 2) ;;
        Ok (Some (place +:+ ", " +:+ format_date (Some date)))
    | None => Ok None
    end = Ok v
    /\ (Re.search ItasPat.place_date_birth text = None -> v = None).
Proof.
  destruct (search ItasPat.place_date_birth text) as [m|] eqn:Hm.
  - destruct (search_binds _ _ _ 1 Hm eq_refl) as [x1 ->].
    destruct (search_binds _ _ _ 2 Hm eq_refl) as [x2 ->].
    simpl. eexists. split; [reflexivity|discriminate].
  - eauto.
Qed.

Lemma itas_date_issue_ok text :
  exists v,
    match Re.search ItasPat.date_issue text with
    | Some m =>
        let day := Py.group m 2 in
        let month := Py.group m 3 in
        let year := Py.group m 4 in
        let month_num := table_get itas_month_dict month month in
        day2 <- Py.method "zfill" Str.zfill2 day ;;
        let date_str :=
          day2 +:+ "/" +:+ Py.str month_num +:+ "/" +:+ Py.str year in
        Ok (Some (format_date (Some date_str)))
    | None =>
        let fallback_date_match := Re.search ItasPat.fallback_date text in
        Ok (date_group_or_none fallback_date_match 0)
    end = Ok v
    /\ (v = None \/ exists x, v = Some (format_date x))
    /\ (Re.search ItasPat.date_issue text = None ->
        Re.search ItasPat.fallback_date text = None -> v = None).
Proof.
  destruct (search ItasPat.date_issue text) as [m|] eqn:Hm.
  - destruct (search_binds _ _ _ 2 Hm eq_refl) as [x2 Hx2].
    cbv zeta. rewrite Hx2. simpl. eexists. split; [reflexivity|].
    split; [right; eauto|discriminate].
  - cbv zeta. eexists. split; [reflexivity|]. split.
    + destruct (search ItasPat.fallback_date text); simpl; eauto.
    + intros _ ->. reflexivity.
Qed.

(** [extract_itas] returns a record, whatever the text; its fields. *)
Lemma extract_itas_fields text :
  exists r,
    extract_itas text = Ok r
    /\ (forall f p, In (f, p) itas_fields ->
        Re.search p text = None -> r !! f = Some None)
    /\ (forall f, In f itas_keys -> is_Some (r !! f))
    /\ r !! "Stay Permit Expiry"
       = Some (date_group_or_none (Re.search ItasPat.expiry text) 1)
    /\ r !! "Passport Expiry"
       = Some (date_group_or_none (Re.search ItasPat.passport_expiry text) 1)
    /\ (exists v, r !! "Date Issue" = Some v
        /\ (v = None \/ exists x, v = Some (format_date x))
        /\ (Re.search ItasPat.date_issue text = None ->
            Re.search ItasPat.fallback_date text = None -> v = None))
    /\ r !! "Jenis Dokumen" = Some (Some "ITAS")
    /\ forall tag, exists r', <["Jenis Dokumen" := tag]> r = r' /\
         forall f, f <> "Jenis Dokumen" -> r' !! f = r !! f.
Proof.
  unfold extract_itas. cbv zeta.
  destruct (strip_group_ok ItasPat.name text 1 eq_refl) as [v1 H1].
  rewrite H1. cbn [bind].
  destruct (itas_place_date_ok text) as (v2 & H2 & N2).
  rewrite H2. cbn [bind].
  destruct (strip_group_ok ItasPat.address text 1 eq_refl) as [v3 H3].
  rewrite H3. cbn [bind].
  destruct (strip_group_ok ItasPat.occupation text 1 eq_refl) as [v4 H4].
  rewrite H4. cbn [bind].
  destruct (strip_group_ok ItasPat.guarantor text 1 eq_refl) as [v5 H5].
  rewrite H5. cbn [bind].
  destruct (itas_date_issue_ok text) as (v6 & H6 & D6 & N6).
  cbv zeta in H6. rewrite H6. cbn [bind].
  eexists. split; [reflexivity|].
  split; [|split; [|split; [|split; [|split; [|split]]]]].
  - intros f p Hin Hnone. unfold itas_fields in Hin. simpl in Hin.
    repeat (destruct Hin as [Hin|Hin];
            [injection Hin as <- <-; try rewrite Hnone; simpl|]);
      try (exfalso; exact Hin).
    + rewrite (strip_group_none _ _ _ _ Hnone H1). reflexivity.
    + reflexivity.
    + reflexivity.
    + rewrite (N2 Hnone). reflexivity.
    + reflexivity.
    + reflexivity.
    + reflexivity.
    + reflexivity.
    + rewrite (strip_group_none _ _ _ _ Hnone H3). reflexivity.
    + rewrite (strip_group_none _ _ _ _ Hnone H4). reflexivity.
    + rewrite (strip_group_none _ _ _ _ Hnone H5). reflexivity.
  - intros f Hin. unfold itas_keys in Hin. simpl in Hin.
    repeat (destruct Hin as [<-|Hin]; [eexists; reflexivity|]).
    destruct Hin.
  - reflexivity.
  - reflexivity.
  - exists v6. split; [reflexivity|]. split; assumption.
  - reflexivity.
  - intros tag. eexists. split; [reflexivity|].
    intros f Hf. apply lookup_insert_ne. congruence.
Qed.

End ItasFacts.

Module NotifFacts.
Import Re Spec StrFacts ReFacts ChrFacts SemFacts GroupFacts FormatDate
  ShapeFacts.

Lemma find_ok p text :
  binds 1 p = true ->
  exists v,
    match Re.search p text with
    | Some m => Py.method "strip" Str.strip (Py.group m 1)
    | None => Ok ""
    end = Ok v
    /\ (Re.search p text = None -> v = "").
Proof.
  intros Hb. destruct (search p text) as [m|] eqn:Hm.
  - destruct (search_binds _ _ _ 1 Hm Hb) as [x ->]. simpl.
    eexists. split; [reflexivity|discriminate].
  - eauto.
Qed.

Lemma day_month_year d a b y :
  Str.forallb Chr.isdigit d = true -> (Str.len d = 1 \/ Str.len d = 2) ->
  Chr.isdigit a = true -> Chr.isdigit b = true ->
  Str.forallb Chr.isdigit y = true -> Str.len y = 4 ->
  is_ddmmyyyy (Str.zfill2 d +:+ "/" +:+ String a (String b "") +:+ "/" +:+ y)
  = true.
Proof.
  intros Hd Hl Ha Hb Hy Hly.
  destruct y as [|y1 [|y2 [|y3 [|y4 [|y5 y]]]]]; try discriminate.
  simpl in Hy. rewrite !andb_true_iff in Hy.
  destruct Hy as (Hy1 & Hy2 & Hy3 & Hy4 & _).
  destruct d as [|d1 [|d2 [|d3 d]]]; simpl in Hl; try (exfalso; lia).
  - simpl in Hd. rewrite andb_true_iff in Hd. destruct Hd as [Hd1 _].
    lazy [String.append Str.zfill2]. cbn [is_ddmmyyyy].
    rewrite Hd1, Ha, Hb, Hy1, Hy2, Hy3, Hy4. reflexivity.
  - simpl in Hd. rewrite !andb_true_iff in Hd. destruct Hd as (Hd1 & Hd2 & _).
    lazy [String.append Str.zfill2]. cbn [is_ddmmyyyy].
    rewrite Hd1, Hd2, Ha, Hb, Hy1, Hy2, Hy3, Hy4. reflexivity.
Qed.

Lemma notif_date_issue_ok text (data : record) :
  exists data',
    match Re.search NotifPat.date_issue text with
    | Some m =>
        day <- Py.method "zfill" Str.zfill2 (Py.group m 1) ;;
        month_key <- Py.method "lower" Str.lower (Py.group m 2) ;;
        Ok (<["Date Issue" :=
               Some (day +:+ "/"
                     +:+ Py.str (table_get notif_month_dict (Some month_key)
                                   (Some "01"))
                     +:+ "/" +:+ Py.str (Py.group m 3))]> data)
    | None => Ok data
    end = Ok data'
    /\ (data' = data
        \/ exists v, data' = <["Date Issue" := Some v]> data
                     /\ is_ddmmyyyy v = true)
    /\ (Re.search NotifPat.date_issue text = None -> data' = data).
Proof.
  destruct (search NotifPat.date_issue text) as [m|] eqn:Hm.
  - apply search_notif_date_issue in Hm.
    destruct Hm as (d & mo & y & -> & -> & -> & Hd & Hl & Hy & Hly).
    cbn [Py.method bind].
    destruct (notif_month_num (Str.lower mo)) as (a & b & -> & Ha & Hb).
    eexists. split; [reflexivity|]. split; [|discriminate].
    right. eexists. split; [reflexivity|].
    cbn [Py.str]. apply day_month_year; assumption.
  - eexists. split; [reflexivity|]. split; auto.
Qed.

Lemma valid_match_ok text (data : record) :
  let valid_match :=
    if negb (is_match (Re.search NotifPat.valid1 text))
    then Re.search NotifPat.valid2 text
    else Re.search NotifPat.valid1 text in
  let data' :=
    match valid_match with
    | Some m =>
        <["Berlaku" := Some (format_date (Py.group m 1) +:+ " - "
                             +:+ format_date (Py.group m 2))]> data
    | None => data
    end in
  (data' = data
   \/ exists a b, data' = <["Berlaku" := Some (a +:+ " - " +:+ b)]> data
                  /\ is_ddmmyyyy a = true /\ is_ddmmyyyy b = true)
  /\ (Re.search NotifPat.valid1 text = None ->
      Re.search NotifPat.valid2 text = None -> data' = data).
Proof.
  cbv zeta.
  destruct (search NotifPat.valid1 text) as [m|] eqn:H1; cbn [is_match negb].
  - apply search_valid1 in H1.
    destruct H1 as (w1 & w2 & -> & -> & [Hp1 Hl1] & [Hp2 Hl2]).
    split; [|discriminate]. right. do 2 eexists. split; [reflexivity|].
    split; apply format_date_shape; assumption.
  - destruct (search NotifPat.valid2 text) as [m|] eqn:H2.
    + apply search_valid2 in H2.
      destruct H2 as (w1 & w2 & -> & -> & [Hp1 Hl1] & [Hp2 Hl2]).
      split; [|discriminate]. right. do 2 eexists. split; [reflexivity|].
      split; apply format_date_shape; assumption.
    + split; auto.
Qed.

End NotifFacts.

Module DecreeFacts.
Import Re Spec StrFacts ReFacts ChrFacts SemFacts GroupFacts FormatDate
  ShapeFacts NotifFacts.

(** Both decree extractors return a record, whatever the text: the same
    fields under the two tags. *)
Lemma decree_extractors text :
  exists base,
    extract_notifikasi text = Ok (<["Jenis Dokumen" := Some "NOTIFIKASI"]> base)
    /\ extract_dkptka text = Ok (<["Jenis Dokumen" := Some "DKPTKA"]> base)
    /\ decree_fields text base.
Proof.
  unfold extract_notifikasi, extract_dkptka. cbv beta zeta.
  destruct (find_ok NotifPat.nomor_keputusan text eq_refl) as (v0 & H0 & N0).
  rewrite !H0. cbn [bind].
  destruct (find_ok (NotifPat.field "Nama TKA") text eq_refl) as (v1 & H1 & N1).
  rewrite !H1. cbn [bind].
  destruct (find_ok (NotifPat.field "Tempat/Tanggal Lahir") text eq_refl)
    as (v2 & H2 & N2).
  rewrite !H2. cbn [bind].
  destruct (find_ok (NotifPat.field "Kewarganegaraan") text eq_refl)
    as (v3 & H3 & N3).
  rewrite !H3. cbn [bind].
  destruct (find_ok (NotifPat.field "Alamat Tempat Tinggal") text eq_refl)
    as (v4 & H4 & N4).
  rewrite !H4. cbn [bind].
  destruct (find_ok (NotifPat.field "Nomor Paspor") text eq_refl)
    as (v5 & H5 & N5).
  rewrite !H5. cbn [bind].
  destruct (find_ok (NotifPat.field "Jabatan") text eq_refl) as (v6 & H6 & N6).
  rewrite !H6. cbn [bind].
  destruct (find_ok (NotifPat.field "Lokasi Kerja") text eq_refl)
    as (v7 & H7 & N7).
  rewrite !H7. cbn [bind].
  match goal with
  | |- context [match (if negb (is_match (search NotifPat.valid1 text))
                       then _ else _) with Some _ => _ | None => ?d end] =>
      pose proof (valid_match_ok text d) as Hv; cbv zeta in Hv;
      set (d0 := d) in *
  end.
  match type of Hv with
  | (?dv = _ \/ _) /\ _ => set (d1 := dv) in *
  end.
  destruct Hv as [Cv Nv].
  destruct (notif_date_issue_ok text d1) as (d2 & Hd & Cd & Nd).
  rewrite !Hd. cbn [bind].
  exists d2. split; [reflexivity|]. split; [reflexivity|].
  clearbody d1. clear Hd H0 H1 H2 H3 H4 H5 H6 H7.
  assert (Hlook : forall f,
             f <> "Berlaku" -> f <> "Date Issue" -> d2 !! f = d0 !! f).
  { intros f Hb Hi.
    destruct Cd as [->|(vd & -> & _)];
      destruct Cv as [->|(a & b & -> & _)];
      rewrite ?lookup_insert_ne by congruence; reflexivity. }
  subst d0. unfold decree_fields. split; [|split; [|split; [|split]]].
  - intros f p Hin Hnone. unfold notif_fields in Hin. simpl in Hin.
    repeat (destruct Hin as [Hin|Hin];
            [injection Hin as <- <-;
             try (rewrite Hlook by discriminate)|]);
      try (exfalso; exact Hin).
    + rewrite (N0 Hnone). reflexivity.
    + rewrite (N1 Hnone). reflexivity.
    + rewrite (N2 Hnone). reflexivity.
    + rewrite (N3 Hnone). reflexivity.
    + rewrite (N4 Hnone). reflexivity.
    + rewrite (N5 Hnone). reflexivity.
    + rewrite (N6 Hnone). reflexivity.
    + rewrite (N7 Hnone). reflexivity.
    + rewrite (Nd Hnone).
      destruct Cv as [->|(a & b & -> & _)]; reflexivity.
  - intros f Hin Hne. unfold notif_keys in Hin. simpl in Hin.
    repeat (destruct Hin as [<-|Hin];
            [try (rewrite Hlook by discriminate; eexists; reflexivity)|]);
      try (exfalso; exact Hin); try congruence.
    + destruct Cd as [->|(vd & -> & _)];
        destruct Cv as [->|(a & b & -> & _)]; eexists; reflexivity.
    + destruct Cd as [->|(vd & -> & _)];
        destruct Cv as [->|(a & b & -> & _)]; eexists; reflexivity.
  - intros Hn1 Hn2. rewrite (Nv Hn1 Hn2) in *.
    destruct Cd as [->|(vd & -> & _)]; reflexivity.
  - destruct Cv as [->|(a & b & -> & Ha & Hb)].
    + left. destruct Cd as [->|(vd & -> & _)]; reflexivity.
    + right. exists a, b. split; [|auto].
      destruct Cd as [->|(vd & -> & _)]; reflexivity.
  - destruct Cd as [->|(vd & -> & Hvd)].
    + left. destruct Cv as [->|(a & b & -> & _)]; reflexivity.
    + right. exists vd. split; [apply lookup_insert_eq|exact Hvd].
Qed.

End DecreeFacts.

Module SkttFacts.
Import Re Spec StrFacts ReFacts ChrFacts SemFacts GroupFacts FormatDate
  ShapeFacts.

(** The scan for the issue date never indexes outside the list of lines. *)
Lemma sktt_date_issue_loop_ok lines : forall todo i,
  i + length todo = length lines ->
  exists v,
    sktt_date_issue_loop lines i todo = Ok v
    /\ (v = None
        \/ exists l m, In l lines
                       /\ Re.search SkttPat.date_issue l = Some m
                       /\ v = Py.group m 2).
Proof.
  induction todo as [|line todo IH]; intros i Hi; simpl.
  - eauto.
  - destruct (Str.contains "KEPALA DINAS" (Str.upper line)).
    + destruct (Nat.ltb 0 i) eqn:Hlt; [|eauto].
      apply Nat.ltb_lt in Hlt. unfold Py.index.
      destruct (lines !! (i - 1)) as [l|] eqn:Hl.
      * simpl. destruct (search SkttPat.date_issue l) as [m|] eqn:Hm; [|eauto].
        eexists. split; [reflexivity|]. right. exists l, m.
        split; [|auto]. apply list_elem_of_In. eapply list_elem_of_lookup_2, Hl.
      * apply lookup_ge_None in Hl. simpl in Hi. lia.
    + apply IH. simpl in Hi. lia.
Qed.

Lemma split_birth_place_date_snd v :
  snd (split_birth_place_date v) = None
  \/ exists x, snd (split_birth_place_date v) = Some (format_date x).
Proof.
  unfold split_birth_place_date. destruct v as [t|]; [|auto].
  destruct (Str.nonempty t); [|auto].
  destruct (Str.split ", " t) as [|p0 [|p1 [|p2 l]]]; simpl; eauto.
Qed.

(** [extract_sktt] returns a record, whatever the text; its fields. *)
Lemma extract_sktt_fields text :
  exists r,
    extract_sktt text = Ok r
    /\ (forall f p, In (f, p) sktt_fields ->
        Re.search p text = None -> r !! f = Some None)
    /\ ((forall l, In l (Str.splitlines (Str.strip text)) ->
         Re.search SkttPat.date_issue l = None) ->
        r !! "Date Issue" = Some None)
    /\ (forall f, In f sktt_keys -> is_Some (r !! f))
    /\ null_or_formatted (r !! "Date of Birth")
    /\ null_or_formatted (r !! "Passport Expiry")
    /\ null_or_date (r !! "Date Issue")
    /\ r !! "Jenis Dokumen" = Some (Some "SKTT").
Proof.
  unfold extract_sktt. cbv zeta.
  destruct (sktt_date_issue_loop_ok (Str.splitlines (Str.strip text))
              (Str.splitlines (Str.strip text)) 0 eq_refl) as (di & Hdi & Cdi).
  rewrite Hdi. cbn [bind].
  pose proof (split_birth_place_date_snd
                match search SkttPat.birth_place_date text with
                | Some m => Py.group m 1
                | None => None
                end) as Hbd.
  assert (Hpair :
    match search SkttPat.birth_place_date text with
    | Some m => split_birth_place_date (Py.group m 1)
    | None => (None, None)
    end
    = split_birth_place_date
        match search SkttPat.birth_place_date text with
        | Some m => Py.group m 1
        | None => None
        end).
  { destruct (search SkttPat.birth_place_date text); reflexivity. }
  assert (Hnone : search SkttPat.birth_place_date text = None ->
                  match search SkttPat.birth_place_date text with
                  | Some m => split_birth_place_date (Py.group m 1)
                  | None => (None, None)
                  end = (None, None)).
  { intros ->. reflexivity. }
  rewrite <- Hpair in Hbd. clear Hpair.
  destruct (match search SkttPat.birth_place_date text with
            | Some m => split_birth_place_date (Py.group m 1)
            | None => (None, None)
            end) as [birth_place birth_date].
  simpl in Hbd.
  eexists. split; [reflexivity|].
  split; [|split; [|split; [|split; [|split; [|split]]]]].
  - intros f p Hin Hn. unfold sktt_fields in Hin. simpl in Hin.
    repeat (destruct Hin as [Hin|Hin];
            [injection Hin as <- <-; try rewrite Hn|]);
      try (exfalso; exact Hin); try reflexivity.
    + specialize (Hnone Hn). injection Hnone as -> ->. reflexivity.
    + specialize (Hnone Hn). injection Hnone as -> ->. reflexivity.
  - intros Hl. destruct Cdi as [->|(l & m & Hin & Hm & ->)]; [reflexivity|].
    rewrite (Hl l Hin) in Hm. discriminate.
  - intros f Hin. unfold sktt_keys in Hin. simpl in Hin.
    repeat (destruct Hin as [<-|Hin]; [eexists; reflexivity|]).
    destruct Hin.
  - destruct Hbd as [->|(x & ->)]; [left|right; exists x]; reflexivity.
  - destruct (search SkttPat.expiry_date text) as [m|];
      [right; eexists|left]; reflexivity.
  - destruct Cdi as [->|(l & m & Hin & Hm & ->)]; [left; reflexivity|].
    apply search_sktt_date_issue in Hm. destruct Hm as (w & -> & Hp & Hlen).
    right. exists (format_date (Some w)). split.
    + destruct w; [discriminate|]. reflexivity.
    + apply format_date_shape; assumption.
  - reflexivity.
Qed.

End SkttFacts.

Module EvlnFacts.
Import Re Spec StrFacts ReFacts ChrFacts SemFacts GroupFacts FormatDate
  ShapeFacts.

Lemma evln_init_inv : evln_inv evln_init.
Proof.
  unfold evln_inv, evln_init. split; [|split; [|split; [|split]]];
    try reflexivity; try (left; reflexivity).
  intros f Hin. unfold evln_keys in Hin. simpl in Hin.
  repeat (destruct Hin as [<-|Hin]; [eexists; reflexivity|]). destruct Hin.
Qed.

(** Setting a field that is no date field to a string keeps the
    invariant. *)
Lemma evln_inv_insert data f s :
  evln_inv data ->
  f <> "Date of Birth" -> f <> "Passport Expiry" -> f <> "Date Issue" ->
  f <> "Jenis Dokumen" ->
  evln_inv (<[f := Some s]> data).
Proof.
  intros (Hk & Hb & He & Hi & Ht) H1 H2 H3 H4.
  split; [|split; [|split; [|split]]].
  - intros g Hg. destruct (decide (f = g)) as [<-|Hne].
    + rewrite lookup_insert_eq. eauto.
    + rewrite lookup_insert_ne by exact Hne. auto.
  - rewrite lookup_insert_ne by exact H1. exact Hb.
  - rewrite lookup_insert_ne by exact H2. exact He.
  - rewrite lookup_insert_ne by exact H3. exact Hi.
  - rewrite lookup_insert_ne by exact H4. exact Ht.
Qed.

(** Setting a date field to a normalised date keeps the invariant. *)
Lemma evln_inv_insert_date data f s :
  evln_inv data -> is_ddmmyyyy s = true ->
  f = "Date of Birth" \/ f = "Passport Expiry" ->
  evln_inv (<[f := Some s]> data).
Proof.
  intros (Hk & Hb & He & Hi & Ht) Hs Hf.
  split; [|split; [|split; [|split]]].
  - intros g Hg. destruct (decide (f = g)) as [<-|Hne].
    + rewrite lookup_insert_eq. eauto.
    + rewrite lookup_insert_ne by exact Hne. auto.
  - destruct Hf as [->| ->].
    + rewrite lookup_insert_eq. right. eauto.
    + rewrite lookup_insert_ne by discriminate. exact Hb.
  - destruct Hf as [->| ->].
    + rewrite lookup_insert_ne by discriminate. exact He.
    + rewrite lookup_insert_eq. right. eauto.
  - rewrite lookup_insert_ne by (destruct Hf as [->| ->]; discriminate).
    exact Hi.
  - rewrite lookup_insert_ne by (destruct Hf as [->| ->]; discriminate).
    exact Ht.
Qed.

Lemma index_ok {A : Type} (l : list A) i :
  Nat.ltb i (length l) = true -> exists x, Py.index l i = Ok x.
Proof.
  intros H. apply Nat.ltb_lt in H. unfold Py.index.
  destruct (l !! i) eqn:Hl; [eauto|].
  apply lookup_ge_None in Hl. lia.
Qed.

Lemma is_match_not_none (m : option rmatch) : is_match m = true -> m <> None.
Proof. destruct m; [discriminate|discriminate]. Qed.

(** The salutation loop returns a record; it touches the name only, and
    only when a line holds the salutation. *)
Lemma evln_dear_loop_ok lines data : forall todo i,
  evln_inv data ->
  exists data',
    evln_dear_loop lines i todo data = Ok data'
    /\ evln_inv data'
    /\ forall f, data' !! f = data !! f \/ evln_fired f todo.
Proof.
  induction todo as [|line todo IH]; intros i Hinv; simpl.
  - eauto.
  - destruct (is_match (search EvlnPat.dear line)) eqn:Hd.
    + assert (Hf : evln_fired "Name" (line :: todo)).
      { exists EvlnPat.dear, line. split; [left; reflexivity|].
        split; [left; reflexivity|]. apply is_match_not_none, Hd. }
      destruct (Nat.ltb (i + 1) (length lines)) eqn:Hlt; [|eauto].
      destruct (index_ok lines (i + 1) Hlt) as [x ->]. cbn [bind].
      destruct (_ && _); [|eauto].
      eexists. split; [reflexivity|]. split.
      * apply evln_inv_insert; [exact Hinv|discriminate..].
      * intros f. destruct (decide ("Name" = f)) as [<-|Hne]; [right; exact Hf|].
        left. apply lookup_insert_ne, Hne.
    + destruct (IH (S i) Hinv) as (data' & -> & Hinv' & Hch).
      eexists. split; [reflexivity|]. split; [exact Hinv'|].
      intros f. destruct (Hch f) as [?|(p & l & ? & ? & ?)]; [auto|].
      right. exists p, l. simpl. auto.
Qed.

(** One iteration of the field loop. *)
Lemma evln_line_ok line data :
  evln_inv data ->
  exists data',
    evln_line line data = Ok data'
    /\ evln_inv data'
    /\ forall f, data' !! f = data !! f \/ evln_fired f [line].
Proof.
  intros Hinv. unfold evln_line.
  assert (Hfire : forall f p, In (f, p) evln_patterns ->
                    is_match (search p line) = true -> evln_fired f [line]).
  { intros f p Hin Hm. exists p, line. split; [exact Hin|].
    split; [left; reflexivity|]. apply is_match_not_none, Hm. }
  assert (Hset : forall f s,
             f <> "Date of Birth" -> f <> "Passport Expiry" ->
             f <> "Date Issue" -> f <> "Jenis Dokumen" ->
             evln_fired f [line] ->
             evln_inv (<[f := Some s]> data)
             /\ forall g, <[f := Some s]> data !! g = data !! g
                          \/ evln_fired g [line]).
  { intros f s H1 H2 H3 H4 Hf. split; [apply evln_inv_insert; auto|].
    intros g. destruct (decide (f = g)) as [<-|Hne]; [right; exact Hf|].
    left. apply lookup_insert_ne, Hne. }
  assert (Hdate : forall f s,
             f = "Date of Birth" \/ f = "Passport Expiry" ->
             is_ddmmyyyy s = true -> evln_fired f [line] ->
             evln_inv (<[f := Some s]> data)
             /\ forall g, <[f := Some s]> data !! g = data !! g
                          \/ evln_fired g [line]).
  { intros f s Hf Hs Hfi. split; [apply evln_inv_insert_date; auto|].
    intros g. destruct (decide (f = g)) as [<-|Hne]; [right; exact Hfi|].
    left. apply lookup_insert_ne, Hne. }
  destruct Hinv as (Hk & Hrest).
  destruct (Hk "Name" ltac:(left; reflexivity)) as [nm Hnm].
  assert (Hinv : evln_inv data) by (split; assumption).
  unfold Py.getitem. rewrite Hnm. cbn [bind].
  destruct (negb (Py.truthy (Some nm)) && is_match (search EvlnPat.name line))
    eqn:H1.
  { apply andb_true_iff in H1. destruct H1 as [_ H1].
    destruct (Nat.ltb 1 (length (Str.split ":" line))) eqn:Hlt; [|eauto].
    destruct (index_ok _ 1 Hlt) as [x ->]. cbn [bind].
    eexists. split; [reflexivity|].
    apply Hset; try discriminate.
    apply (Hfire "Name" EvlnPat.name); [right; left; reflexivity|exact H1]. }
  destruct (is_match (search EvlnPat.place_of_birth line)) eqn:H2.
  { destruct (Nat.ltb 1 (length (Str.split ":" line))) eqn:Hlt; [|eauto].
    destruct (index_ok _ 1 Hlt) as [x ->]. cbn [bind].
    eexists. split; [reflexivity|].
    apply Hset; try discriminate.
    apply (Hfire _ EvlnPat.place_of_birth); [simpl; tauto|exact H2]. }
  destruct (is_match (search EvlnPat.date_of_birth line)) eqn:H3.
  { destruct (search EvlnPat.numeric_date line) as [m|] eqn:Hm; [|eauto].
    apply search_numeric_date in Hm. destruct Hm as (w & -> & Hp & Hl).
    eexists. split; [reflexivity|].
    apply Hdate; [auto|apply format_date_shape; assumption|].
    apply (Hfire _ EvlnPat.date_of_birth); [simpl; tauto|exact H3]. }
  destruct (is_match (search EvlnPat.passport_no line)) eqn:H4.
  { destruct (search EvlnPat.upper_token line) as [m|] eqn:Hm; [|eauto].
    destruct (search_binds _ _ _ 1 Hm eq_refl) as [x ->].
    eexists. split; [reflexivity|].
    apply Hset; try discriminate.
    apply (Hfire _ EvlnPat.passport_no); [simpl; tauto|exact H4]. }
  destruct (is_match (search EvlnPat.passport_expiry line)) eqn:H5.
  { destruct (search EvlnPat.numeric_date line) as [m|] eqn:Hm; [|eauto].
    apply search_numeric_date in Hm. destruct Hm as (w & -> & Hp & Hl).
    eexists. split; [reflexivity|].
    apply Hdate; [auto|apply format_date_shape; assumption|].
    apply (Hfire _ EvlnPat.passport_expiry); [simpl; tauto|exact H5]. }
  eauto.
Qed.

Lemma evln_fired_cons f line todo :
  evln_fired f [line] \/ evln_fired f todo -> evln_fired f (line :: todo).
Proof.
  intros [(p & l & Hp & Hl & Hm)|(p & l & Hp & Hl & Hm)]; exists p, l.
  - split; [exact Hp|]. split; [|exact Hm].
    destruct Hl as [<-|[]]. left. reflexivity.
  - split; [exact Hp|]. split; [right; exact Hl|exact Hm].
Qed.

Lemma evln_lines_loop_ok : forall todo data,
  evln_inv data ->
  exists data',
    evln_lines_loop todo data = Ok data'
    /\ evln_inv data'
    /\ forall f, data' !! f = data !! f \/ evln_fired f todo.
Proof.
  induction todo as [|line todo IH]; intros data Hinv; simpl.
  - eauto.
  - destruct (evln_line_ok line data Hinv) as (d1 & -> & Hinv1 & Hch1).
    cbn [bind].
    destruct (IH d1 Hinv1) as (d2 & -> & Hinv2 & Hch2).
    eexists. split; [reflexivity|]. split; [exact Hinv2|].
    intros f. destruct (Hch2 f) as [H2|H2].
    + destruct (Hch1 f) as [H1|H1].
      * left. congruence.
      * right. apply evln_fired_cons. auto.
    + right. apply evln_fired_cons. auto.
Qed.

Lemma evln_issue_loop_ok text data : forall patterns,
  (evln_issue_loop patterns text data = data
   \/ exists x, evln_issue_loop patterns text data
                = <["Date Issue" := Some (format_date x)]> data)
  /\ ((forall p, In p patterns -> Re.search p text = None) ->
      evln_issue_loop patterns text data = data).
Proof.
  induction patterns as [|p ps IH]; simpl.
  - auto.
  - destruct (search p text) as [m|] eqn:Hm.
    + split; [right; eauto|]. intros H. rewrite (H p) in Hm by auto. discriminate.
    + destruct IH as [IH1 IH2]. split; [exact IH1|]. intros H. apply IH2. auto.
Qed.

(** [extract_evln] returns a record, whatever the text; its fields. *)
Lemma extract_evln_fields text :
  exists r,
    extract_evln text = Ok r
    /\ (forall f, In f evln_keys -> exists s, r !! f = Some (Some s))
    /\ (forall f, In f evln_keys ->
        f <> "Date Issue" -> f <> "Jenis Dokumen" ->
        ~ evln_fired f (Str.split nl text) ->
        r !! f = Some (Some ""))
    /\ ((forall p, In p EvlnPat.issue_patterns -> Re.search p text = None) ->
        r !! "Date Issue" = Some (Some ""))
    /\ empty_or_date (r !! "Date of Birth")
    /\ empty_or_date (r !! "Passport Expiry")
    /\ empty_or_formatted (r !! "Date Issue")
    /\ r !! "Jenis Dokumen" = Some (Some "EVLN").
Proof.
  unfold extract_evln. cbv zeta.
  destruct (evln_dear_loop_ok (Str.split nl text) evln_init (Str.split nl text)
              0 evln_init_inv) as (d1 & -> & Hinv1 & Hch1).
  cbn [bind].
  destruct (evln_lines_loop_ok (Str.split nl text) d1 Hinv1)
    as (d2 & -> & Hinv2 & Hch2).
  cbn [bind].
  pose proof Hinv2 as (Hk & Hb & He & Hi & Ht).
  unfold Py.getitem. rewrite Hi. cbn [bind Py.truthy Str.nonempty negb].
  destruct (evln_issue_loop_ok text d2 EvlnPat.issue_patterns) as [Hcase Hnone].
  eexists. split; [reflexivity|].
  assert (Hother : forall f, f <> "Date Issue" ->
            evln_issue_loop EvlnPat.issue_patterns text d2 !! f = d2 !! f).
  { intros f Hf. destruct Hcase as [->|(x & ->)]; [reflexivity|].
    apply lookup_insert_ne. congruence. }
  split; [|split; [|split; [|split; [|split; [|split]]]]].
  - intros f Hin. destruct (decide (f = "Date Issue")) as [->|Hne].
    + destruct Hcase as [->|(x & ->)]; [eauto|].
      rewrite lookup_insert_eq. eauto.
    + rewrite Hother by exact Hne. auto.
  - intros f Hin Hne Hnt Hnf. rewrite Hother by exact Hne.
    destruct (Hch2 f) as [H2|H2]; [|contradiction].
    destruct (Hch1 f) as [H1|H1]; [|contradiction].
    rewrite H2, H1. unfold evln_keys in Hin. simpl in Hin.
    destruct Hin as [<-|[<-|[<-|[<-|[<-|[<-|[<-|[]]]]]]]];
      try reflexivity; congruence.
  - intros Hn. rewrite (Hnone Hn). exact Hi.
  - rewrite Hother by discriminate. exact Hb.
  - rewrite Hother by discriminate. exact He.
  - destruct Hcase as [->|(x & ->)].
    + left. exact Hi.
    + right. exists x. apply lookup_insert_eq.
  - rewrite Hother by discriminate. exact Ht.
Qed.

End EvlnFacts.

Module DetectClaims.
Import Re Spec StrFacts LitFacts DetectFacts.









End DetectClaims.

Module FormatDateClaims.
Import Re Spec StrFacts FormatDate.



End FormatDateClaims.

Module CleanText.
Import Re Spec StrFacts ReFacts ChrFacts SemFacts LitFacts StripFacts SubFacts.

Lemma startswith_app w post : Str.startswith w (w +:+ post) = true.
Proof.
  induction w as [|c w IH]; [reflexivity|].
  rewrite app_cons. simpl. rewrite eqc_refl. exact IH.
Qed.

Lemma contains_app_r l pre t :
  Str.startswith l t = true -> Str.contains l (pre +:+ t) = true.
Proof.
  intros H. induction pre as [|c pre IH].
  - rewrite app_nil_l. destruct t; simpl; rewrite H; reflexivity.
  - rewrite app_cons. simpl. rewrite IH. apply orb_true_r.
Qed.

(** A match of the label pattern starts with one of the labels. *)
Lemma match_at_labels pv t m :
  match_at Pat.labels pv t = Some m ->
  exists l, In l label_list /\ Str.startswith l t = true.
Proof.
  intros H. apply match_at_sound in H.
  destruct H as (w & post & new & -> & -> & Hs).
  exists w. split; [|apply startswith_app].
  unfold Pat.labels in Hs. sem_inv; simpl; tauto.
Qed.

Lemma sub_del_labels_id s : no_label s = true -> sub_del Pat.labels s = s.
Proof.
  intros Hn. unfold sub_del. apply sub_go_id.
  intros pv pre t ->.
  destruct (match_at Pat.labels pv t) as [m|] eqn:Hm; [|reflexivity].
  apply match_at_labels in Hm. destruct Hm as (l & Hl & Hst).
  unfold no_label in Hn. rewrite List.forallb_forall in Hn.
  specialize (Hn l Hl). rewrite (contains_app_r l pre t Hst) in Hn. discriminate.
Qed.

Lemma sub_del_period s : sub_del Pat.period s = Str.filter not_period s.
Proof. apply sub_del_cls. Qed.

Lemma sub_del_not_kept s : sub_del Pat.not_kept s = Str.filter kept' s.
Proof. apply sub_del_cls. Qed.

(** The shape of a cleaned text: words joined by single spaces. *)
Lemma clean_text_shape s f :
  exists ws,
    clean_text (Some s) f = Str.join sp ws
    /\ Forall word ws
    /\ Forall (fun w => Str.forallb kept' w = true) ws
    /\ (f = true -> Forall (fun w => Str.forallb not_period w = true) ws).
Proof.
  unfold clean_text. rewrite sub_del_not_kept.
  set (v := if f then _ else _).
  exists (Str.split_ws (Str.strip (Str.filter kept' v))).
  split; [reflexivity|]. split; [apply split_ws_words|]. split.
  - apply split_ws_forallb, forallb_strip, forallb_filter.
  - intros ->. subst v. rewrite sub_del_period.
    apply split_ws_forallb, forallb_strip, forallb_filter_other, forallb_filter.
Qed.

Lemma clean_text_joined ws f :
  Forall word ws ->
  Forall (fun w => Str.forallb kept' w = true) ws ->
  (f = true -> Forall (fun w => Str.forallb not_period w = true) ws) ->
  no_label (Str.join sp ws) = true ->
  clean_text (Some (Str.join sp ws)) f = Str.join sp ws.
Proof.
  intros Hw Hk Hp Hn. unfold clean_text.
  rewrite (sub_del_labels_id _ Hn).
  assert (Hv : (if f then sub_del Pat.period (Str.join sp ws) else Str.join sp ws)
               = Str.join sp ws).
  { destruct f; [|reflexivity]. rewrite sub_del_period.
    apply filter_id, forallb_join; [reflexivity|auto]. }
  rewrite Hv, sub_del_not_kept.
  rewrite (filter_id kept') by (apply forallb_join; [reflexivity|exact Hk]).
  rewrite (strip_join ws Hw), (split_ws_join ws Hw). reflexivity.
Qed.

(** C8 as stated fails: cleaning can bring the pieces of a label together,
    and the second run deletes the label. *)
Lemma clean_text_not_idempotent :
  clean_text (Some (clean_text (Some "Ala!mat") false)) false
  <> clean_text (Some "Ala!mat") false.
Proof. vm_compute. discriminate. Qed.

(** C8, amended: for every string and either value of the flag, if the
    cleaned text contains none of the six label fragments, cleaning it again
    with the same flag changes nothing. *)
Theorem clean_text_idempotent_without_labels (s : string) (flag : bool) :
  no_label (clean_text (Some s) flag) = true ->
  clean_text (Some (clean_text (Some s) flag)) flag = clean_text (Some s) flag.
Proof.
  destruct (clean_text_shape s flag) as (ws & -> & Hw & Hk & Hp).
  apply clean_text_joined; assumption.
Qed.

Lemma clean_text_idempotent_without_labels_witness :
  clean_text (Some (clean_text (Some " John..Doe  Jr ") true)) true
  = clean_text (Some " John..Doe  Jr ") true.
Proof.
  apply clean_text_idempotent_without_labels. vm_compute. reflexivity.
Defined.

End CleanText.

Module Filename.
Import Re Spec StrFacts ReFacts ChrFacts StripFacts SubFacts.








End Filename.

Module Totality.
Import Re Spec ItasFacts DecreeFacts SkttFacts EvlnFacts.

Lemma extract_sktt_total text : exists r, extract_sktt text = Ok r.
Proof. destruct (extract_sktt_fields text) as (r & H & _). eauto. Qed.

Lemma extract_evln_total text : exists r, extract_evln text = Ok r.
Proof. destruct (extract_evln_fields text) as (r & H & _). eauto. Qed.

Lemma extract_itas_total text : exists r, extract_itas text = Ok r.
Proof. destruct (extract_itas_fields text) as (r & H & _). eauto. Qed.

Lemma extract_itk_total text : exists r, extract_itk text = Ok r.
Proof.
  unfold extract_itk. destruct (extract_itas_total text) as [r ->].
  simpl. eauto.
Qed.

Lemma extract_notifikasi_total text : exists r, extract_notifikasi text = Ok r.
Proof. destruct (decree_extractors text) as (b & H & _). eauto. Qed.

Lemma extract_dkptka_total text : exists r, extract_dkptka text = Ok r.
Proof. destruct (decree_extractors text) as (b & _ & H & _). eauto. Qed.

(** The dispatcher returns a record for every text and every type name. *)
Lemma extract_data_by_type_total text doc_type :
  exists r, extract_data_by_type text doc_type = Ok r.
Proof.
  unfold extract_data_by_type.
  destruct (String.eqb doc_type "SKTT"); [apply extract_sktt_total|].
  destruct (String.eqb doc_type "EVLN"); [apply extract_evln_total|].
  destruct (String.eqb doc_type "ITAS"); [apply extract_itas_total|].
  destruct (String.eqb doc_type "ITK"); [apply extract_itk_total|].
  destruct (String.eqb doc_type "NOTIFIKASI"); [apply extract_notifikasi_total|].
  destruct (String.eqb doc_type "DKPTKA"); [apply extract_dkptka_total|].
  eauto.
Qed.

Lemma detect_document_type_kind text :
  In (detect_document_type text) layout_kinds.
Proof.
  unfold detect_document_type, layout_kinds.
  repeat match goal with
         | |- context [if ?b then _ else _] => destruct b
         end; simpl; tauto.
Qed.

(** C2: for every text, [detect_document_type] returns one of the seven
    layout names (UNKNOWN included), and [extract_data_by_type] on the text
    and the detected name returns a record: no [.group], index or key
    access of the extractors can raise, whatever the text holds. *)
Theorem detect_then_extract_never_raises (text : string) :
  In (detect_document_type text) layout_kinds
  /\ exists r, extract_data_by_type text (detect_document_type text) = Ok r.
Proof.
  split; [apply detect_document_type_kind|apply extract_data_by_type_total].
Qed.

(** C5: for every text the two decree extractors return records that hold
    the same value under every key but Jenis Dokumen, where one holds
    NOTIFIKASI and the other DKPTKA. *)
Theorem notifikasi_dkptka_agree (text : string) :
  exists r1 r2,
    extract_notifikasi text = Ok r1
    /\ extract_dkptka text = Ok r2
    /\ (forall k, k <> "Jenis Dokumen" -> r1 !! k = r2 !! k)
    /\ r1 !! "Jenis Dokumen" = Some (Some "NOTIFIKASI")
    /\ r2 !! "Jenis Dokumen" = Some (Some "DKPTKA").
Proof.
  destruct (decree_extractors text) as (base & H1 & H2 & _).
  do 2 eexists. split; [exact H1|]. split; [exact H2|]. split; [|split].
  - intros k Hk. rewrite !lookup_insert_ne by congruence. reflexivity.
  - apply lookup_insert_eq.
  - apply lookup_insert_eq.
Qed.

Lemma notifikasi_dkptka_agree_witness :
  exists r1 r2,
    extract_notifikasi "Nama TKA : JOHN" = Ok r1
    /\ extract_dkptka "Nama TKA : JOHN" = Ok r2
    /\ r1 !! "Nama TKA" = r2 !! "Nama TKA".
Proof.
  destruct (notifikasi_dkptka_agree "Nama TKA : JOHN")
    as (r1 & r2 & H1 & H2 & Hk & _).
  exists r1, r2. split; [exact H1|]. split; [exact H2|].
  apply Hk. discriminate.
Defined.

End Totality.

Module Fields.
Import Re Spec FormatDate ItasFacts DecreeFacts SkttFacts EvlnFacts Totality.

(** ** What the extractors put in the date fields *)







(** ** The six extractors *)








(** ** C3 *)




(** ** C1 *)




End Fields.

Module Bulk.
Import Re Spec Totality.






Lemma bulk_entry_unreadable dt file e :
  Str.endswith ".pdf" (Str.lower (filename file)) = true ->
  pages file = Raise e ->
  bulk_entry dt file = Error (filename file) (exn_str e).
Proof. intros H Hp. unfold bulk_entry, bulk_try. rewrite H, Hp. reflexivity. Qed.





End Bulk.
